(** * The travel-planner query tools: a shallow embedding and its properties

    The repository wires five "tools" (flight, hotel, place, weather and
    budget) over a cached JSON loader.  Every tool receives one JSON-encoded
    text, runs a filter / sort / format pipeline inside a [try] block and
    answers with a text.  This file embeds

    - the Python values the tools manipulate (what [json.loads] returns),
      together with the dynamic operations the tools apply to them
      ([.get], [.lower()], comparisons, truthiness, [int()], [float()]),
      each raising where Python raises;
    - [DataLoader.load_json] with its process-wide cache, as explicit state
      passing over a [world] (the files on disk and the cache);
    - the bodies of the five [_run] methods and their exception handlers;

    and then proves what the specification says about them.

    A number in a JSON document is the rational it denotes: a Python [int]
    and a finite Python [float] both become a [VNum], and comparisons of
    such numbers are exact, as they are in Python.  A document that holds a
    float that is not finite ([Infinity], [NaN], [1e999]) has no
    counterpart here.  [float()] and the arithmetic that follows it are
    IEEE 754 binary64, with its rounding, its infinities, its [nan] and its
    negative zero: the module [Float] below, over the Standard Library's
    [SpecFloat].  A text is the sequence of its UTF-8 bytes.  Functions of the Python runtime whose
    definition is outside this repository ([json.loads], [str.lower],
    [round], [datetime.fromisoformat], number formatting, the HTTP client)
    are the fields of the class [Python]; every theorem holds for each
    implementation of that class.  Logging is left out. *)

From Stdlib Require Import ZArith QArith Qround Lqa SpecFloat String Ascii List Sorted
  Permutation Lia.
From stdpp Require Import base option list gmap strings pretty.

Set Warnings "-register-all".

(** ** Python values *)

Inductive value : Type :=
  | VNone
  | VBool (b : bool)
  | VNum (q : Q)
  | VStr (s : string)
  | VList (l : list value)
  | VDict (d : gmap string value).

(** ** Exceptions and fallible computations *)

Inductive exn_class : Type :=
  | JSONDecodeError
  | FileNotFoundError
  | AttributeError
  | TypeError
  | ValueError
  | KeyError
  | IndexError
  | ZeroDivisionError
  | OverflowError
  | RequestException
  | OtherException.

(** An exception is its class and the text [str(e)] gives.  The texts of the
    exceptions Python itself raises are not reproduced word for word; the
    one text this repository writes ([load_json]'s) is. *)
Record exn : Type := Exn { exn_cls : exn_class; exn_msg : string }.

Inductive result (A : Type) : Type :=
  | Ok (a : A)
  | Raise (e : exn).
Arguments Ok {A} a.
Arguments Raise {A} e.

#[global] Instance result_ret : MRet result := fun A a => Ok a.
#[global] Instance result_bind : MBind result :=
  fun A B f m => match m with Ok a => f a | Raise e => Raise e end.

Definition raise {A} (c : exn_class) (msg : string) : result A :=
  Raise (Exn c msg).

(** [mapM]: a list comprehension whose element expression may raise; the
    first exception, in list order, aborts the comprehension. *)
Fixpoint traverse {A B} (f : A -> result B) (l : list A) : result (list B) :=
  match l with
  | [] => Ok []
  | x :: l' => y ← f x; ys ← traverse f l'; Ok (y :: ys)
  end.

(** [[x for x in l if p(x)]] with a predicate that may raise. *)
Fixpoint select {A} (p : A -> result bool) (l : list A) : result (list A) :=
  match l with
  | [] => Ok []
  | x :: l' =>
      b ← p x; xs ← select p l';
      Ok (if b : bool then x :: xs else xs)
  end.

(** ** Dynamic operations on values *)

(** [bool] is a subclass of [int] in Python: [True] counts as 1. *)
Definition as_num (v : value) : option Q :=
  match v with
  | VNum q => Some q
  | VBool b => Some (if b then 1%Q else 0%Q)
  | _ => None
  end.

(** [a == b]; never raises on JSON values. *)
Fixpoint py_eq (a b : value) {struct a} : bool :=
  match a, b with
  | VNone, VNone => true
  | VStr s, VStr t => bool_decide (s = t)
  | VList l, VList m =>
      (fix go (l m : list value) {struct l} : bool :=
         match l, m with
         | [], [] => true
         | x :: l', y :: m' => py_eq x y && go l' m'
         | _, _ => false
         end) l m
  | VDict d, VDict e =>
      bool_decide (size d = size e) &&
      map_fold (fun k x acc =>
                  acc && match e !! k with Some y => py_eq x y | None => false end)
               true d
  | _, _ =>
      match as_num a, as_num b with
      | Some p, Some q => Qeq_bool p q
      | _, _ => false
      end
  end.

(** Three-way comparison behind [<], [<=], [>], [>=]: numbers with numbers,
    strings with strings (by code point), lists with lists
    (lexicographically, on the first pair of unequal elements); every other
    pair is a [TypeError]. *)
Fixpoint py_compare (a b : value) {struct a} : result comparison :=
  match a, b with
  | VStr s, VStr t => Ok (String.compare s t)
  | VList l, VList m =>
      (fix go (l m : list value) {struct l} : result comparison :=
         match l, m with
         | [], [] => Ok Eq
         | [], _ :: _ => Ok Lt
         | _ :: _, [] => Ok Gt
         | x :: l', y :: m' => if py_eq x y then go l' m' else py_compare x y
         end) l m
  | _, _ =>
      match as_num a, as_num b with
      | Some p, Some q => Ok (p ?= q)%Q
      | _, _ => raise TypeError "comparison not supported between these types"
      end
  end.

Definition py_lt (a b : value) : result bool :=
  c ← py_compare a b; Ok (match c with Lt => true | _ => false end).
Definition py_le (a b : value) : result bool :=
  c ← py_compare a b; Ok (match c with Gt => false | _ => true end).
Definition py_gt (a b : value) : result bool :=
  c ← py_compare a b; Ok (match c with Gt => true | _ => false end).
Definition py_ge (a b : value) : result bool :=
  c ← py_compare a b; Ok (match c with Lt => false | _ => true end).

(** Truth value testing ([if v:], [not v]). *)
Definition py_truthy (v : value) : bool :=
  match v with
  | VNone => false
  | VBool b => b
  | VNum q => negb (Qeq_bool q 0)
  | VStr s => negb (bool_decide (s = ""))
  | VList l => negb (bool_decide (l = []))
  | VDict d => negb (bool_decide (size d = 0%nat))
  end.

(** Unary minus. *)
Definition py_neg (v : value) : result value :=
  match as_num v with
  | Some q => Ok (VNum (- q))
  | None => raise TypeError "bad operand type for unary -"
  end.

(** [d.get(key, default)]: only dictionaries have the method. *)
Definition dict_get (v : value) (key : string) (dflt : value) : result value :=
  match v with
  | VDict d => Ok (default dflt (d !! key))
  | _ => raise AttributeError "object has no attribute 'get'"
  end.

(** [d.get(key)], whose default is [None]. *)
Definition dict_get_none (v : value) (key : string) : result value :=
  dict_get v key VNone.

(** A [str] method applied to a value: an [AttributeError] on anything but
    a string. *)
Definition str_method {A} (f : string -> A) (v : value) : result A :=
  match v with
  | VStr s => Ok (f s)
  | _ => raise AttributeError "object has no such str method"
  end.

(** [len(v)]. *)
Definition py_len (v : value) : result nat :=
  match v with
  | VStr s => Ok (String.length s)
  | VList l => Ok (length l)
  | VDict d => Ok (size d)
  | _ => raise TypeError "object has no len()"
  end.

Definition chars (s : string) : list value :=
  (fun c => VStr (String c EmptyString)) <$> list_ascii_of_string s.

(** [for x in v]: the elements of a list, the keys of a dictionary, the
    characters of a string. *)
Definition py_iter (v : value) : result (list value) :=
  match v with
  | VList l => Ok l
  | VDict d => Ok ((fun kv => VStr kv.1) <$> map_to_list d)
  | VStr s => Ok (chars s)
  | _ => raise TypeError "object is not iterable"
  end.

(** [v[i]] for a natural number [i].  The keys of a JSON object are strings,
    so an integer subscript of a dictionary is a [KeyError]. *)
Definition py_index (v : value) (i : nat) : result value :=
  match v with
  | VList l =>
      match l !! i with
      | Some x => Ok x
      | None => raise IndexError "list index out of range"
      end
  | VStr s =>
      match chars s !! i with
      | Some x => Ok x
      | None => raise IndexError "string index out of range"
      end
  | VDict _ => raise KeyError "integer key"
  | _ => raise TypeError "object is not subscriptable"
  end.

(** ** Python's [float] and its arithmetic

    A Python [float] is an IEEE 754 binary64 number.  [spec_float] is the
    Standard Library's specification of these numbers and of their
    operations, each rounded to the nearest float, ties to even. *)

Module Float.
Definition float : Type := spec_float.

Definition prec : Z := 53.
Definition emax : Z := 1024.

Definition is_finite (x : float) : bool :=
  match x with
  | S754_zero _ | S754_finite _ _ _ => true
  | S754_infinity _ | S754_nan => false
  end.


(** The float nearest to [n / d], with sign [s]; an infinity when that is
    beyond the largest float. *)
Definition nearest (s : bool) (n d : positive) : float :=
  let '(m, e, l) := SFdiv_core_binary prec emax (Zpos n) 0 (Zpos d) 0 in
  binary_round_aux prec emax s m e l.

(** The float nearest to a rational. *)
Definition of_Q (q : Q) : float :=
  match Qnum q with
  | Z0 => S754_zero false
  | Zpos n => nearest false n (Qden q)
  | Zneg n => nearest true n (Qden q)
  end.

Definition of_Z (n : Z) : float := of_Q (inject_Z n).

(** The rational a finite float is; 0 for the others. *)
Definition to_Q (x : float) : Q :=
  match x with
  | S754_finite s m e =>
      let n := if s then Zneg m else Zpos m in
      match e with
      | Z0 => inject_Z n
      | Zpos p => inject_Z (n * Zpos (2 ^ p))
      | Zneg p => n # (2 ^ p)
      end
  | _ => 0
  end.

Definition mul : float -> float -> float := SFmul prec emax.
Definition add : float -> float -> float := SFadd prec emax.

(** [x > y]; false when either is a [nan]. *)
Definition gtb (x y : float) : bool := SFltb y x.
End Float.

(** A Python number is an [int], of any size, or a [float]. *)
Inductive num : Type :=
  | Int (n : Z)
  | Flt (x : Float.float).

(** The conversion of an operand to [float] that mixed arithmetic makes:
    an [int] beyond the largest float is an [OverflowError]. *)
Definition num_to_float (a : num) : result Float.float :=
  match a with
  | Flt x => Ok x
  | Int n =>
      let x := Float.of_Z n in
      if Float.is_finite x then Ok x
      else raise OverflowError "int too large to convert to float"
  end.




(** [v >= x] for a float [x]: numbers only; nothing is at least a [nan]. *)
Definition py_ge_float (v : value) (x : Float.float) : result bool :=
  match as_num v with
  | Some q =>
      Ok match x with
         | S754_nan => false
         | S754_infinity s => s
         | _ => Qle_bool (Float.to_Q x) q
         end
  | None => raise TypeError "comparison not supported between these types"
  end.

(** ** The Python runtime and the outside world *)

(** What [datetime.fromisoformat] returns: a point on the time line, in
    seconds, and whether the time stamp carried a UTC offset. *)
Record datetime : Type := { dt_seconds : Q; dt_aware : bool }.

Class Python : Type := {
  (** [json.loads] / [json.load] *)
  json_loads : string -> result value;
  (** [str.lower], [str.strip], [str.title] *)
  str_lower : string -> string;
  str_strip : string -> string;
  str_title : string -> string;
  (** [int(s)] and [float(s)] of a string; [None] is the [ValueError] *)
  int_of_str : string -> option Z;
  float_of_str : string -> option Q;
  (** [datetime.fromisoformat]; [None] is the [ValueError] *)
  fromisoformat : string -> option datetime;
  (** [round(x, 1)] and [round(x)] *)
  round1 : Q -> Q;
  round0 : Q -> Z;
  (** [str(x)] of a number, a list or a dictionary *)
  str_num : Q -> string;
  repr_container : value -> string;
  (** the format specifications [","] and [",.0f"] on a number *)
  fmt_comma : Q -> string;
  fmt_comma_0f : Q -> string;
  (** [datetime.strptime(s, "%Y-%m-%d")], as the ordinal of the day (day 1
      is 0001-01-01); [None] is the [ValueError] *)
  strptime_ymd : string -> option Z;
  (** [requests.get(url, params, timeout=10)] followed by
      [raise_for_status()] and [.json()], for the forecast request with
      its coordinates, start day and end day *)
  requests_get_json : string -> Q -> Q -> Z -> Z -> result value;
}.

(** The process state the tools share: the resource files and
    [DataLoader._cache]. *)
Record world : Type := World {
  files : gmap string string;
  cache : gmap string value;
}.

(** [config.settings]: the resource paths are fixed at import time from the
    installation directory, the default daily expense from the environment. *)
Record Settings : Type := {
  FLIGHTS_PATH : string;
  HOTELS_PATH : string;
  PLACES_PATH : string;
  WEATHER_API_URL : string;
  DEFAULT_DAILY_EXPENSE : Z;
}.

(** ** More operations, which need the runtime *)

Section PythonOps.
Context `{Python}.

(** [int(v)]: truncation toward zero on a number. *)
Definition py_int (v : value) : result Z :=
  match v with
  | VNum q => Ok (Z.quot (Qnum q) (Z.pos (Qden q)))
  | VBool b => Ok (if b then 1 else 0)%Z
  | VStr s =>
      match int_of_str s with
      | Some z => Ok z
      | None => raise ValueError "invalid literal for int()"
      end
  | _ => raise TypeError "int() argument must be a string or a number"
  end.

(** The texts that [float()] reads as an infinity or as a [nan], stripped
    and in lower case. *)
Definition float_special (s : string) : option Float.float :=
  if bool_decide (s ∈ ["inf"; "+inf"; "infinity"; "+infinity"])
  then Some (S754_infinity false)
  else if bool_decide (s ∈ ["-inf"; "-infinity"])
  then Some (S754_infinity true)
  else if bool_decide (s ∈ ["nan"; "+nan"; "-nan"])
  then Some S754_nan
  else None.

(** [float(v)].  An [int] is rounded to the nearest float and is an
    [OverflowError] beyond the largest one; a float is returned as it is;
    a text is read as a number ([float_of_str] gives the rational a
    decimal literal denotes), which is rounded, to an infinity when it is
    too large. *)
Definition py_float (v : value) : result Float.float :=
  match v with
  | VNum q =>
      let x := Float.of_Q q in
      if Float.is_finite x then Ok x
      else raise OverflowError "int too large to convert to float"
  | VBool b => Ok (Float.of_Z (if b then 1 else 0))
  | VStr s =>
      match float_special (str_lower (str_strip s)) with
      | Some x => Ok x
      | None =>
          match float_of_str s with
          | Some q => Ok (Float.of_Q q)
          | None => raise ValueError "could not convert string to float"
          end
      end
  | _ => raise TypeError "float() argument must be a string or a number"
  end.

(** [str(v)], as an f-string field without a format specification
    renders it. *)
Definition py_str (v : value) : string :=
  match v with
  | VNone => "None"
  | VBool true => "True"
  | VBool false => "False"
  | VNum q => str_num q
  | VStr s => s
  | VList _ | VDict _ => repr_container v
  end.

(** [f"{v:,}"]: thousands separators exist for numbers only. *)
Definition format_comma (v : value) : result string :=
  match v with
  | VStr _ => raise ValueError "Cannot specify ',' with 's'."
  | _ =>
      match as_num v with
      | Some q => Ok (fmt_comma q)
      | None => raise TypeError "unsupported format string"
      end
  end.

(** [sorted(l, key=...)].  Python first computes every key, then sorts
    with [<] alone, stably.  The sort below is an insertion sort; on keys
    that [<] orders totally every stable sort returns the same list, and a
    comparison that raises aborts the sort. *)
Fixpoint insert_keyed {A} (x : value * A) (l : list (value * A))
  : result (list (value * A)) :=
  match l with
  | [] => Ok [x]
  | y :: l' =>
      b ← py_lt y.1 x.1;
      if b : bool then r ← insert_keyed x l'; Ok (y :: r) else Ok (x :: y :: l')
  end.

Fixpoint sort_keyed {A} (l : list (value * A)) : result (list (value * A)) :=
  match l with
  | [] => Ok []
  | x :: l' => s ← sort_keyed l'; insert_keyed x s
  end.

Definition py_sorted {A} (key : A -> result value) (l : list A)
  : result (list A) :=
  keyed ← traverse (fun x : A => k ← key x; Ok (k, x)) l;
  sorted ← sort_keyed (A:=A) keyed;
  Ok (snd <$> (sorted : list (value * A))).
End PythonOps.

(** Text helpers of the report formats. *)

Definition nl : string := String "010"%char "".

(** ["=" * n] *)
Fixpoint repeat_str (s : string) (n : nat) : string :=
  match n with
  | O => ""
  | S n' => s +:+ repeat_str s n'
  end.

(** [c in s] for a character. *)
Fixpoint contains_char (c : ascii) (s : string) : bool :=
  match s with
  | EmptyString => false
  | String a s' => bool_decide (a = c) || contains_char c s'
  end.

(** [s.split(c)] for a one-character separator. *)
Fixpoint split_on (c : ascii) (s : string) : list string :=
  match s with
  | EmptyString => [""]
  | String a s' =>
      if bool_decide (a = c) then "" :: split_on c s'
      else match split_on c s' with
           | [] => [String a ""]
           | w :: ws => String a w :: ws
           end
  end.

(** [sep.join(l)] *)
Fixpoint join (sep : string) (l : list string) : string :=
  match l with
  | [] => ""
  | [x] => x
  | x :: l' => x +:+ sep +:+ join sep l'
  end.

(** ** src/utils/data_loader.py *)

Module DataLoader.
Section DataLoader.
Context `{Python}.

(** [DataLoader.load_json].  The path is the cache key ([str(file_path)]).
    A cached array is returned as it is, the file is not looked at.
    Otherwise the file must exist, its content is parsed and the parsed
    value is stored in the cache before the success message takes its
    length; the [except] clauses log and re-raise. *)
Definition load_json (file_path : string) (w : world) : result value * world :=
  match cache w !! file_path with
  | Some data => (Ok data, w)
  | None =>
      match files w !! file_path with
      | None =>
          (raise FileNotFoundError ("Data file not found: " +:+ file_path), w)
      | Some text =>
          match json_loads text with
          | Raise e => (Raise e, w)
          | Ok data =>
              let w' := World (files w) (<[file_path := data]> (cache w)) in
              match py_len data with
              | Raise e => (Raise e, w')
              | Ok _ => (Ok data, w')
              end
          end
      end
  end.

(** [DataLoader.clear_cache] *)
Definition clear_cache (w : world) : world := World (files w) ∅.
End DataLoader.
End DataLoader.

(** The handler shared by the five [_run] methods:
    [except json.JSONDecodeError: return <invalid>] and
    [except Exception as e: return f"<prefix>{str(e)}"].  Whatever the body
    did to the world before it raised stays done. *)
Definition try_except (invalid_json prefix : string)
    (outcome : result string * world) : result string * world :=
  match outcome with
  | (Ok text, w) => (Ok text, w)
  | (Raise (Exn JSONDecodeError _), w) => (Ok invalid_json, w)
  | (Raise e, w) => (Ok (prefix +:+ exn_msg e), w)
  end.

(** The records of [l] whose flag is set. *)
Fixpoint select_by {A} (flags : list bool) (l : list A) : list A :=
  match flags, l with
  | b :: flags', x :: l' => if b then x :: select_by flags' l' else select_by flags' l'
  | _, _ => []
  end.

(** ** src/tools/flight_tool.py *)

Module FlightSearchTool.
Section FlightSearchTool.
Context `{Python} (settings : Settings).

Record request : Type := {
  source : string;
  destination : string;
  preference : string;
}.

Inductive outcome : Type :=
  | NoFlights
  | Found (total : nat) (top_flights : list value).

(** Reading the parameters; [inl] is the early [return] of an error
    text. *)
Definition read_request (query : string) : result (string + request) :=
  params ← json_loads query;
  s ← dict_get params "source" (VStr "");
  source ← str_method str_strip s;
  d ← dict_get params "destination" (VStr "");
  destination ← str_method str_strip d;
  p ← dict_get params "preference" (VStr "cheapest");
  preference ← str_method str_lower p;
  if bool_decide (source = "") || bool_decide (destination = "")
  then Ok (inl "Error: Both source and destination are required.")
  else Ok (inr (Build_request source destination preference)).

(** The condition of the filtering comprehension; [and] does not evaluate
    its right operand when the left one is false. *)
Definition matches (req : request) (flight : value) : result bool :=
  f ← dict_get flight "from" (VStr "");
  fl ← str_method str_lower f;
  if bool_decide (fl = str_lower (source req)) then
    t ← dict_get flight "to" (VStr "");
    tl ← str_method str_lower t;
    Ok (bool_decide (tl = str_lower (destination req)))
  else Ok false.

(** [datetime.fromisoformat(flight.get(key, ""))]; [None] stands for the
    exception (a [TypeError] on a value that is not a string, a
    [ValueError] on a text that does not parse). *)
Definition timestamp (flight : gmap string value) (key : string)
  : option datetime :=
  match default (VStr "") (flight !! key) with
  | VStr s => fromisoformat s
  | _ => None
  end.

(** The [try] block that derives a duration: any exception in it
    (a time stamp that does not parse, a naive time stamp subtracted
    from an aware one) is swallowed by the bare [except], which stores
    0. *)
Definition derive_duration (flight : gmap string value) : value :=
  let hours : option Q :=
    dep ← timestamp flight "departure_time";
    arr ← timestamp flight "arrival_time";
    if bool_decide (dt_aware arr = dt_aware dep)
    then Some (round1 ((dt_seconds arr - dt_seconds dep) / 3600)%Q)
    else None in
  match hours with
  | Some h => VNum h
  | None => VNum 0
  end.

(** One turn of the loop over the filtered flights.  A record that
    passed the filter is a dictionary ([.get] worked on it), so the last
    case is never reached. *)
Definition with_duration (flight : value) : value :=
  match flight with
  | VDict d =>
      match d !! "duration_hours" with
      | Some _ => flight
      | None => VDict (<["duration_hours" := derive_duration d]> d)
      end
  | _ => flight
  end.

Definition sort_key (req : request) (flight : value) : result value :=
  if bool_decide (preference req = "fastest")
  then dict_get flight "duration_hours" (VNum 999)
  else dict_get flight "price" (VNum 999999).

(** The cached array after the loop.  The comprehension keeps references
    to the cached records, so the loop's assignments land in the records
    of the cached array that were selected. *)
Definition mark_durations (flags : list bool) (flights : list value) : list value :=
  zip_with (fun (b : bool) flight => if b then with_duration flight else flight)
           flags flights.

(** Sorting by the preference, the top 3 and the number of matches
    ([len] is taken after [filtered_flights] was rebound to the sorted
    list). *)
Definition rank (req : request) (filtered_flights : list value) : result outcome :=
  sorted ← py_sorted (sort_key req) filtered_flights;
  Ok (Found (length sorted) (take 3 sorted)).

(** Everything between loading and formatting: the outcome, and the
    loaded value as the call leaves it. *)
Definition search (req : request) (flights : value) : result outcome * value :=
  match py_iter flights with
  | Raise e => (Raise e, flights)
  | Ok items =>
      match traverse (matches req) items with
      | Raise e => (Raise e, flights)
      | Ok flags =>
          let filtered_flights := select_by flags items in
          if bool_decide (filtered_flights = []) then (Ok NoFlights, flights)
          else
            let flights' :=
              match flights with
              | VList _ => VList (mark_durations flags items)
              | _ => flights
              end in
            (rank req (with_duration <$> filtered_flights), flights')
      end
  end.

(** [dep_time.split('T')[1][:5]] *)
Definition clock_time (s : string) : string :=
  String.substring 0 5 (default "" (split_on "T"%char s !! 1%nat)).

Definition render_option (entry : nat * value) : result string :=
  let '(i, flight) := entry in
  airline ← dict_get flight "airline" (VStr "N/A");
  p ← dict_get flight "price" (VNum 0);
  price ← format_comma p;
  duration ← dict_get flight "duration_hours" (VNum 0);
  dep_time ← dict_get flight "departure_time" (VStr "N/A");
  dep ← (if contains_char "T"%char (py_str dep_time)
         then str_method clock_time dep_time
         else Ok (py_str dep_time));
  flight_id ← dict_get flight "flight_id" (VStr "N/A");
  Ok (nl +:+ "Option " +:+ pretty i +:+ ":" +:+ nl
      +:+ "  Airline: " +:+ py_str airline +:+ nl
      +:+ "  Price: â‚¹" +:+ price +:+ nl
      +:+ "  Duration: " +:+ py_str duration +:+ " hours" +:+ nl
      +:+ "  Departure: " +:+ dep +:+ nl
      +:+ "  Flight ID: " +:+ py_str flight_id +:+ nl
      +:+ repeat_str "-" 50 +:+ nl).

Definition render (req : request) (o : outcome) : result string :=
  match o with
  | NoFlights =>
      Ok ("No flights found from " +:+ source req +:+ " to "
          +:+ destination req +:+ ".")
  | Found total top_flights =>
      options ← traverse render_option (imap (fun i x => (S i, x)) top_flights);
      Ok ("Found " +:+ pretty total +:+ " flights from " +:+ source req
          +:+ " to " +:+ destination req +:+ "." +:+ nl +:+ nl
          +:+ "Top 3 Options:" +:+ nl +:+ repeat_str "=" 50 +:+ nl
          +:+ join "" options)
  end.

(** The [try] block of [_run]. *)
Definition body (query : string) (w : world) : result string * world :=
  match read_request query with
  | Raise e => (Raise e, w)
  | Ok (inl early) => (Ok early, w)
  | Ok (inr req) =>
      match DataLoader.load_json (FLIGHTS_PATH settings) w with
      | (Raise e, w1) => (Raise e, w1)
      | (Ok flights, w1) =>
          let '(found, flights') := search req flights in
          (found ≫= render req,
           World (files w1) (<[FLIGHTS_PATH settings := flights']> (cache w1)))
      end
  end.

Definition _run (query : string) (w : world) : result string * world :=
  try_except "Error: Invalid JSON format." "Error searching flights: "
             (body query w).
End FlightSearchTool.
End FlightSearchTool.

(** ** src/tools/hotel_tool.py *)

Module HotelRecommendationTool.
Section HotelRecommendationTool.
Context `{Python} (settings : Settings).

Record request : Type := {
  city : string;
  min_rating : Z;
  max_price : value;
}.

Inductive outcome : Type :=
  | NoHotelsInCity
  | NoHotelsMatching
  | Found (total : nat) (top_hotels : list value).

Definition read_request (query : string) : result (string + request) :=
  params ← json_loads query;
  c ← dict_get params "city" (VStr "");
  city ← str_method str_strip c;
  r ← dict_get params "min_rating" (VNum 3);
  min_rating ← py_int r;
  max_price ← dict_get_none params "max_price_per_night";
  if bool_decide (city = "")
  then Ok (inl "Error: City is required.")
  else Ok (inr (Build_request city min_rating max_price)).

Definition in_city (req : request) (hotel : value) : result bool :=
  c ← dict_get hotel "city" (VStr "");
  cl ← str_method str_lower c;
  Ok (bool_decide (cl = str_lower (city req))).

Definition rated (req : request) (hotel : value) : result bool :=
  stars ← dict_get hotel "stars" (VNum 0);
  py_ge stars (VNum (inject_Z (min_rating req))).

(** [hotel.get("price_per_night", float('inf')) <= max_price].  Numbers
    are finite here, so the default [inf] is below no number; against
    anything else than a number the comparison raises. *)
Definition within_price (req : request) (hotel : value) : result bool :=
  match hotel with
  | VDict d =>
      match d !! "price_per_night" with
      | Some price => py_le price (max_price req)
      | None =>
          match as_num (max_price req) with
          | Some _ => Ok false
          | None => raise TypeError "'<=' not supported between these types"
          end
      end
  | _ => raise AttributeError "object has no attribute 'get'"
  end.

(** [lambda x: (-x.get("stars", 0), x.get("price_per_night", 0))]; a
    tuple compares like the list of its components. *)
Definition sort_key (hotel : value) : result value :=
  stars ← dict_get hotel "stars" (VNum 0);
  negated ← py_neg stars;
  price ← dict_get hotel "price_per_night" (VNum 0);
  Ok (VList [negated; price]).

Definition search (req : request) (hotels : value) : result outcome :=
  items ← py_iter hotels;
  filtered_hotels ← select (in_city req) items;
  if bool_decide (filtered_hotels = []) then Ok NoHotelsInCity
  else
    filtered_hotels ← select (rated req) filtered_hotels;
    filtered_hotels ← (if py_truthy (max_price req)
                       then select (within_price req) filtered_hotels
                       else Ok filtered_hotels);
    if bool_decide (filtered_hotels = []) then Ok NoHotelsMatching
    else
      sorted ← py_sorted sort_key filtered_hotels;
      Ok (Found (length sorted) (take 3 sorted)).

(** [', '.join(amenities)] *)
Definition join_amenities (amenities : value) : result string :=
  items ← py_iter amenities;
  names ← traverse (fun x => match x with
                             | VStr s => Ok s
                             | _ => raise TypeError "sequence item: expected str instance"
                             end) items;
  Ok (join ", " names).

Definition render_option (entry : nat * value) : result string :=
  let '(i, hotel) := entry in
  name ← dict_get hotel "name" (VStr "N/A");
  stars ← dict_get hotel "stars" (VNum 0);
  p ← dict_get hotel "price_per_night" (VNum 0);
  price ← format_comma p;
  amenities ← dict_get hotel "amenities" (VList []);
  amenities_line ← (if py_truthy amenities
                    then joined ← join_amenities amenities;
                         Ok ("  Amenities: " +:+ joined +:+ nl)
                    else Ok "");
  hotel_id ← dict_get hotel "hotel_id" (VStr "N/A");
  Ok (nl +:+ "Option " +:+ pretty i +:+ ":" +:+ nl
      +:+ "  Name: " +:+ py_str name +:+ nl
      +:+ "  Star Rating: " +:+ py_str stars +:+ " ⭐" +:+ nl
      +:+ "  Price: ₹" +:+ price +:+ "/night" +:+ nl
      +:+ amenities_line
      +:+ "  Hotel ID: " +:+ py_str hotel_id +:+ nl
      +:+ repeat_str "-" 50 +:+ nl).

Definition render (req : request) (o : outcome) : result string :=
  match o with
  | NoHotelsInCity => Ok ("No hotels found in " +:+ city req +:+ ".")
  | NoHotelsMatching =>
      Ok ("No hotels found in " +:+ city req +:+ " matching your criteria.")
  | Found total top_hotels =>
      options ← traverse render_option (imap (fun i x => (S i, x)) top_hotels);
      Ok ("Found " +:+ pretty total +:+ " hotels in " +:+ city req
          +:+ " (showing top 3)." +:+ nl +:+ nl
          +:+ "Recommended Hotels:" +:+ nl +:+ repeat_str "=" 50 +:+ nl
          +:+ join "" options)
  end.

Definition body (query : string) (w : world) : result string * world :=
  match read_request query with
  | Raise e => (Raise e, w)
  | Ok (inl early) => (Ok early, w)
  | Ok (inr req) =>
      match DataLoader.load_json (HOTELS_PATH settings) w with
      | (Raise e, w1) => (Raise e, w1)
      | (Ok hotels, w1) => (search req hotels ≫= render req, w1)
      end
  end.

Definition _run (query : string) (w : world) : result string * world :=
  try_except "Error: Invalid JSON format. Please provide valid JSON with 'city'."
             "Error searching hotels: "
             (body query w).
End HotelRecommendationTool.
End HotelRecommendationTool.

(** ** src/tools/places_tool.py *)

Module PlacesDiscoveryTool.
Section PlacesDiscoveryTool.
Context `{Python} (settings : Settings).

Record request : Type := {
  city : string;
  category : string;
  min_rating : Float.float;
}.

Inductive outcome : Type :=
  | NoPlacesInCity
  | NoPlacesMatching
  | Found (total : nat) (top_places : list value).

Definition read_request (query : string) : result (string + request) :=
  params ← json_loads query;
  c ← dict_get params "city" (VStr "");
  city ← str_method str_strip c;
  k ← dict_get params "category" (VStr "");
  stripped ← str_method str_strip k;
  let category := str_lower stripped in
  r ← dict_get params "min_rating" (VNum (7 # 2));
  min_rating ← py_float r;
  if bool_decide (city = "")
  then Ok (inl "Error: City is required.")
  else Ok (inr (Build_request city category min_rating)).

Definition in_city (req : request) (place : value) : result bool :=
  c ← dict_get place "city" (VStr "");
  cl ← str_method str_lower c;
  Ok (bool_decide (cl = str_lower (city req))).

Definition of_category (req : request) (place : value) : result bool :=
  t ← dict_get place "type" (VStr "");
  tl ← str_method str_lower t;
  Ok (bool_decide (tl = str_lower (category req))).

Definition rated (req : request) (place : value) : result bool :=
  rating ← dict_get place "rating" (VNum 0);
  py_ge_float rating (min_rating req).

Definition sort_key (place : value) : result value :=
  rating ← dict_get place "rating" (VNum 0);
  py_neg rating.

Definition search (req : request) (places : value) : result outcome :=
  items ← py_iter places;
  filtered_places ← select (in_city req) items;
  if bool_decide (filtered_places = []) then Ok NoPlacesInCity
  else
    filtered_places ← (if bool_decide (category req = "")
                       then Ok filtered_places
                       else select (of_category req) filtered_places);
    filtered_places ← select (rated req) filtered_places;
    if bool_decide (filtered_places = []) then Ok NoPlacesMatching
    else
      sorted ← py_sorted sort_key filtered_places;
      Ok (Found (length sorted) (take 5 sorted)).

Definition render_option (entry : nat * value) : result string :=
  let '(i, place) := entry in
  name ← dict_get place "name" (VStr "N/A");
  type ← dict_get place "type" (VStr "N/A");
  rating ← dict_get place "rating" (VNum 0);
  description ← dict_get place "description" (VStr "");
  place_id ← dict_get place "place_id" (VStr "N/A");
  Ok (nl +:+ pretty i +:+ ". " +:+ py_str name +:+ nl
      +:+ "   Category: " +:+ py_str type +:+ nl
      +:+ "   Rating: " +:+ py_str rating +:+ "â­" +:+ nl
      +:+ (if py_truthy description
           then "   Description: " +:+ py_str description +:+ nl
           else "")
      +:+ "   Place ID: " +:+ py_str place_id +:+ nl
      +:+ repeat_str "-" 50 +:+ nl).

Definition render (req : request) (o : outcome) : result string :=
  match o with
  | NoPlacesInCity => Ok ("No places found in " +:+ city req +:+ ".")
  | NoPlacesMatching =>
      Ok ("No places found in " +:+ city req
          +:+ (if bool_decide (category req = "") then ""
               else " in category '" +:+ category req +:+ "'")
          +:+ " matching your criteria.")
  | Found total top_places =>
      options ← traverse render_option (imap (fun i x => (S i, x)) top_places);
      Ok ("Found " +:+ pretty total +:+ " places in " +:+ city req
          +:+ (if bool_decide (category req = "") then ""
               else " (" +:+ category req +:+ ")")
          +:+ " (showing top 5)." +:+ nl +:+ nl
          +:+ "Recommended Places:" +:+ nl +:+ repeat_str "=" 50 +:+ nl
          +:+ join "" options)
  end.

Definition body (query : string) (w : world) : result string * world :=
  match read_request query with
  | Raise e => (Raise e, w)
  | Ok (inl early) => (Ok early, w)
  | Ok (inr req) =>
      match DataLoader.load_json (PLACES_PATH settings) w with
      | (Raise e, w1) => (Raise e, w1)
      | (Ok places, w1) => (search req places ≫= render req, w1)
      end
  end.

Definition _run (query : string) (w : world) : result string * world :=
  try_except "Error: Invalid JSON format." "Error searching places: "
             (body query w).
End PlacesDiscoveryTool.
End PlacesDiscoveryTool.

(** ** src/tools/budget_tool.py *)

Module BudgetEstimationTool.
Section BudgetEstimationTool.
Context `{Python} (settings : Settings).

(** [f"{x:,.0f}"] on a float. *)
Definition format_0f (x : Float.float) : string :=
  match x with
  | S754_nan => "nan"
  | S754_infinity false => "inf"
  | S754_infinity true => "-inf"
  | S754_zero true => "-0"
  | _ => fmt_comma_0f (Float.to_Q x)
  end.

Record costs : Type := {
  hotel_total : Float.float;
  food_travel_total : Float.float;
  total_cost : Float.float;
}.

(** The three lines under [# Calculate costs].  The prices are floats and
    [num_nights] is an [int]: each product converts the [int] to a float
    first, and the sum is made from left to right. *)
Definition calculate_costs (flight_price hotel_price_per_night : Float.float)
    (num_nights : Z) (daily_expense : Float.float) : result costs :=
  nights ← num_to_float (Int num_nights);
  let hotel_total := Float.mul hotel_price_per_night nights in
  days ← num_to_float (Int (num_nights + 1));
  let food_travel_total := Float.mul daily_expense days in
  let total_cost := Float.add (Float.add flight_price hotel_total)
                              food_travel_total in
  Ok {| hotel_total := hotel_total;
        food_travel_total := food_travel_total;
        total_cost := total_cost |}.

Definition render (flight_price hotel_price_per_night : Float.float)
    (num_nights : Z) (daily_expense : Float.float) (c : costs) : string :=
  ("Budget Breakdown" +:+ nl
      +:+ repeat_str "=" 50 +:+ nl +:+ nl
      +:+ "âœˆï¸  Flight Cost:          â‚¹" +:+ format_0f flight_price +:+ nl
      +:+ "ðŸ¨ Hotel (" +:+ pretty num_nights +:+ " nights):  â‚¹"
          +:+ format_0f (hotel_total c) +:+ nl
      +:+ "    (â‚¹" +:+ format_0f hotel_price_per_night
          +:+ " per night)" +:+ nl
      +:+ "ðŸ½ï¸  Food & Local Travel:  â‚¹" +:+ format_0f (food_travel_total c) +:+ nl
      +:+ "    (â‚¹" +:+ format_0f daily_expense +:+ " per day Ã— "
          +:+ pretty (num_nights + 1)%Z +:+ " days)" +:+ nl
      +:+ nl +:+ repeat_str "-" 50 +:+ nl
      +:+ "ðŸ’° Total Estimated Cost: â‚¹" +:+ format_0f (total_cost c) +:+ nl
      +:+ repeat_str "=" 50 +:+ nl
      +:+ nl +:+ "ðŸ’¡ Budget Tips:" +:+ nl
      +:+ (if Float.gtb (total_cost c) (Float.of_Z 30000)
           then "   â€¢ Consider booking in advance for better rates" +:+ nl
           else "")
      +:+ (if Float.gtb hotel_price_per_night (Float.of_Z 4000)
           then "   â€¢ Look for hotels slightly away from tourist hotspots" +:+ nl
           else "")
      +:+ "   â€¢ Use local transport to save on daily expenses" +:+ nl
      +:+ "   â€¢ Try local eateries for authentic and affordable food" +:+ nl).

Definition body (query : string) : result string :=
  params ← json_loads query;
  fp ← dict_get params "flight_price" (VNum 0);
  flight_price ← py_float fp;
  hp ← dict_get params "hotel_price_per_night" (VNum 0);
  hotel_price_per_night ← py_float hp;
  nn ← dict_get params "num_nights" (VNum 1);
  num_nights ← py_int nn;
  de ← dict_get params "daily_expense"
                (VNum (inject_Z (DEFAULT_DAILY_EXPENSE settings)));
  daily_expense ← py_float de;
  c ← calculate_costs flight_price hotel_price_per_night num_nights
                      daily_expense;
  Ok (render flight_price hotel_price_per_night num_nights daily_expense c).

Definition _run (query : string) (w : world) : result string * world :=
  try_except "Error: Invalid JSON format." "Error calculating budget: "
             (body query, w).


End BudgetEstimationTool.
End BudgetEstimationTool.

(** ** src/tools/weather_tool.py *)

Module WeatherLookupTool.

(** [Settings.CITY_COORDINATES]: latitude and longitude by lower-case
    city name. *)
Definition CITY_COORDINATES : gmap string (Q * Q) :=
  list_to_map [
    ("mumbai", (190760 # 10000, 728777 # 10000));
    ("delhi", (287041 # 10000, 771025 # 10000));
    ("bangalore", (129716 # 10000, 775946 # 10000));
    ("kolkata", (225726 # 10000, 883639 # 10000));
    ("chennai", (130827 # 10000, 802707 # 10000));
    ("hyderabad", (173850 # 10000, 784867 # 10000));
    ("pune", (185204 # 10000, 738567 # 10000));
    ("ahmedabad", (230225 # 10000, 725714 # 10000));
    ("jaipur", (269124 # 10000, 757873 # 10000));
    ("goa", (152993 # 10000, 741240 # 10000));
    ("kochi", (99312 # 10000, 762673 # 10000));
    ("udaipur", (245854 # 10000, 737125 # 10000));
    ("varanasi", (253176 # 10000, 829739 # 10000));
    ("shimla", (311048 # 10000, 771734 # 10000));
    ("manali", (322432 # 10000, 771892 # 10000));
    ("darjeeling", (270410 # 10000, 882663 # 10000));
    ("agra", (271767 # 10000, 780081 # 10000));
    ("amritsar", (316340 # 10000, 748723 # 10000));
    ("mysore", (122958 # 10000, 766394 # 10000));
    ("rishikesh", (300869 # 10000, 782676 # 10000))
  ]%Q.

Definition Rainy : string := "🌧️  Rainy".
Definition LightRain : string := "🌦️  Light Rain".
Definition Windy : string := "💨  Windy".
Definition Breezy : string := "🌤️  Breezy".
Definition ClearSunny : string := "☀️  Clear/Sunny".

(** [get_weather_condition]: an [if] / [elif] chain, so a later test is
    only evaluated when the earlier ones are false. *)
Definition get_weather_condition (precipitation windspeed : value)
  : result string :=
  b ← py_gt precipitation (VNum 10);
  if b : bool then Ok Rainy else
  b ← py_gt precipitation (VNum 2);
  if b : bool then Ok LightRain else
  b ← py_gt windspeed (VNum 30);
  if b : bool then Ok Windy else
  b ← py_gt windspeed (VNum 15);
  if b : bool then Ok Breezy else
  Ok ClearSunny.

Section WeatherLookupTool.
Context `{Python} (settings : Settings).

(** [Settings.get_city_coordinates] *)
Definition get_city_coordinates (city : string) : option (Q * Q) :=
  CITY_COORDINATES !! str_lower city.

Record day_info : Type := {
  day_date : value;
  temp_max : value;
  temp_min : value;
  day_precipitation : value;
  day_windspeed : value;
  condition : string;
}.

(** [seq[i] if i < len(seq) else dflt], then a conversion of the item. *)
Definition item_or (seq : value) (i : nat) (convert : value -> result value)
    (dflt : value) : result value :=
  n ← py_len seq;
  if bool_decide (i < n)%nat then x ← py_index seq i; convert x else Ok dflt.

(** [round(x)] and [round(x, 1)] *)
Definition py_round (x : value) : result value :=
  match as_num x with
  | Some q => Ok (VNum (inject_Z (round0 q)))
  | None => raise TypeError "type doesn't define __round__ method"
  end.
Definition py_round1 (x : value) : result value :=
  match as_num x with
  | Some q => Ok (VNum (round1 q))
  | None => raise TypeError "type doesn't define __round__ method"
  end.

Definition day (dates maxima minima precipitation windspeed : value) (i : nat)
  : result day_info :=
  p ← item_or precipitation i Ok (VNum 0);
  w ← item_or windspeed i Ok (VNum 0);
  condition ← get_weather_condition p w;
  d ← py_index dates i;
  tmax ← item_or maxima i py_round VNone;
  tmin ← item_or minima i py_round VNone;
  p1 ← item_or precipitation i py_round1 (VNum 0);
  w1 ← item_or windspeed i py_round1 (VNum 0);
  Ok {| day_date := d; temp_max := tmax; temp_min := tmin;
        day_precipitation := p1; day_windspeed := w1;
        condition := condition |}.

(** [start + timedelta(days=n)]: Python's dates end with 9999-12-31,
    day 3652059. *)
Definition add_days (start : Z) (n : Z) : result Z :=
  let d := (start + n)%Z in
  if bool_decide (1 ≤ d ≤ 3652059)%Z then Ok d
  else raise OtherException "date value out of range".

(** The [try] block of [fetch_weather]. *)
Definition fetch_weather_body (latitude longitude : Q) (start_date : string)
    (num_days : Z) : result (list day_info) :=
  start ← match strptime_ymd start_date with
          | Some d => Ok d
          | None => raise ValueError "time data does not match format"
          end;
  end_ ← add_days start (num_days - 1);
  data ← requests_get_json (WEATHER_API_URL settings) latitude longitude
                           start end_;
  daily ← dict_get data "daily" (VDict ∅);
  dates ← dict_get daily "time" (VList []);
  maxima ← dict_get daily "temperature_2m_max" (VList []);
  minima ← dict_get daily "temperature_2m_min" (VList []);
  precipitation ← dict_get daily "precipitation_sum" (VList []);
  windspeed ← dict_get daily "windspeed_10m_max" (VList []);
  n ← py_len dates;
  traverse (day dates maxima minima precipitation windspeed) (seq 0 n).

(** [fetch_weather]: both [except] clauses return the empty list. *)
Definition fetch_weather (latitude longitude : Q) (start_date : string)
    (num_days : Z) : list day_info :=
  match fetch_weather_body latitude longitude start_date num_days with
  | Ok weather_list => weather_list
  | Raise _ => []
  end.

Definition render_day (d : day_info) : string :=
  "📅 " +:+ py_str (day_date d) +:+ ":" +:+ nl
  +:+ "   🌡️  Temperature: " +:+ py_str (temp_min d) +:+ "°C - "
  +:+ py_str (temp_max d) +:+ "°C" +:+ nl
  +:+ "   " +:+ condition d +:+ nl
  +:+ repeat_str "-" 50 +:+ nl.

Definition body (query : string) : result string :=
  params ← json_loads query;
  c ← dict_get params "city" (VStr "");
  city ← str_method str_strip c;
  s ← dict_get params "start_date" (VStr "");
  start_date ← str_method str_strip s;
  nd ← dict_get params "num_days" (VNum 7);
  num_days ← py_int nd;
  if bool_decide (city = "") || bool_decide (start_date = "")
  then Ok "Error: Both city and start_date are required."
  else
    match get_city_coordinates city with
    | None =>
        Ok ("Error: Coordinates not found for " +:+ city
            +:+ ". Please check the city name.")
    | Some (latitude, longitude) =>
        let weather_data := fetch_weather latitude longitude start_date num_days in
        if bool_decide (weather_data = [])
        then Ok ("Error: Could not fetch weather data for " +:+ city +:+ ".")
        else
          Ok ("Weather Forecast for " +:+ str_title city +:+ nl
              +:+ "From " +:+ start_date +:+ " (" +:+ pretty num_days
              +:+ " days)" +:+ nl
              +:+ repeat_str "=" 50 +:+ nl +:+ nl
              +:+ join "" (render_day <$> weather_data))
    end.

Definition _run (query : string) (w : world) : result string * world :=
  try_except "Error: Invalid JSON format." "Error fetching weather: "
             (body query, w).
End WeatherLookupTool.
End WeatherLookupTool.

(** ** A concrete runtime, for the examples

    The theorems below hold for every [Python]; to run the tools on
    concrete inputs one implementation is fixed here: ASCII case mapping
    and white space, time stamps of the shape [YYYY-MM-DDTHH:MM:SS],
    rounding half to even on exact rationals, and a JSON reader that knows
    the documents the examples use. *)

Module Example.

Definition lower_char (c : ascii) : ascii :=
  let n := nat_of_ascii c in
  if (65 <=? n)%nat && (n <=? 90)%nat then ascii_of_nat (n + 32) else c.

Fixpoint lower (s : string) : string :=
  match s with
  | EmptyString => EmptyString
  | String c s' => String (lower_char c) (lower s')
  end.

Definition is_space (c : ascii) : bool :=
  let n := nat_of_ascii c in
  (n =? 32)%nat || ((9 <=? n)%nat && (n <=? 13)%nat).

Fixpoint lstrip (l : list ascii) : list ascii :=
  match l with
  | c :: l' => if is_space c then lstrip l' else l
  | [] => []
  end.

Definition strip (s : string) : string :=
  string_of_list_ascii (rev (lstrip (rev (lstrip (list_ascii_of_string s))))).

Definition digit (c : ascii) : option Z :=
  let n := nat_of_ascii c in
  if (48 <=? n)%nat && (n <=? 57)%nat then Some (Z.of_nat (n - 48)) else None.

Fixpoint digits_from (acc : Z) (l : list ascii) : option Z :=
  match l with
  | [] => Some acc
  | c :: l' => d ← digit c; digits_from (acc * 10 + d) l'
  end.

(** A non-empty run of decimal digits. *)
Definition natural (l : list ascii) : option Z :=
  match l with
  | [] => None
  | _ => digits_from 0 l
  end.

Definition int_of (s : string) : option Z :=
  match list_ascii_of_string (strip s) with
  | "-"%char :: l => Z.opp <$> natural l
  | l => natural l
  end.

Definition is_leap (y : Z) : bool :=
  ((y mod 4 =? 0) && negb (y mod 100 =? 0) || (y mod 400 =? 0))%Z.

Definition days_in_month (y m : Z) : Z :=
  if (m =? 2)%Z then (if is_leap y then 29 else 28)
  else if ((m =? 4) || (m =? 6) || (m =? 9) || (m =? 11))%Z then 30 else 31.

(** The ordinal of a calendar day: 0001-01-01 is day 1. *)
Definition ordinal (y m d : Z) : Z :=
  let y' := (if m <=? 2 then y - 1 else y)%Z in
  let era := (y' / 400)%Z in
  let yoe := (y' - era * 400)%Z in
  let mp := (if m <=? 2 then m + 9 else m - 3)%Z in
  let doy := ((153 * mp + 2) / 5 + d - 1)%Z in
  let doe := (yoe * 365 + yoe / 4 - yoe / 100 + doy)%Z in
  (era * 146097 + doe - 305)%Z.

Definition parse_date (l : list ascii) : option Z :=
  match l with
  | [y1; y2; y3; y4; "-"%char; m1; m2; "-"%char; d1; d2] =>
      y ← natural [y1; y2; y3; y4];
      m ← natural [m1; m2];
      d ← natural [d1; d2];
      if ((1 <=? y) && (1 <=? m) && (m <=? 12) && (1 <=? d)
          && (d <=? days_in_month y m))%Z
      then Some (ordinal y m d) else None
  | _ => None
  end.

Definition parse_clock (l : list ascii) : option Z :=
  match l with
  | [h1; h2; ":"%char; m1; m2; ":"%char; s1; s2] =>
      h ← natural [h1; h2];
      m ← natural [m1; m2];
      s ← natural [s1; s2];
      if ((h <? 24) && (m <? 60) && (s <? 60))%Z
      then Some (h * 3600 + m * 60 + s)%Z else None
  | _ => None
  end.

Definition isoformat (s : string) : option datetime :=
  let l := list_ascii_of_string s in
  day ← parse_date (take 10 l);
  match drop 10 l with
  | "T"%char :: clock =>
      secs ← parse_clock clock;
      Some {| dt_seconds := inject_Z (day * 86400 + secs); dt_aware := false |}
  | _ => None
  end.

(** Rounding half to even. *)
Definition round_half_even (x : Q) : Z :=
  let f := Qfloor x in
  match ((x - inject_Z f) ?= (1 # 2))%Q with
  | Lt => f
  | Gt => (f + 1)%Z
  | Eq => if Z.even f then f else (f + 1)%Z
  end.

Definition round_tenths (x : Q) : Q :=
  Qred (inject_Z (round_half_even (x * 10)) / 10).

(** Numbers are printed as fractions. *)
Definition show_num (q : Q) : string :=
  let r := Qred q in
  if (Z.pos (Qden r) =? 1)%Z then pretty (Qnum r)
  else pretty (Qnum r) +:+ "/" +:+ pretty (Z.pos (Qden r)).

(** Two Delhi to Goa flights without a stored duration, and one flight
    elsewhere. *)
Definition flight_a : gmap string value :=
  list_to_map [("flight_id", VStr "FL001"); ("airline", VStr "IndiGo");
               ("from", VStr "Delhi"); ("to", VStr "Goa"); ("price", VNum 4800);
               ("departure_time", VStr "2025-01-10T10:00:00");
               ("arrival_time", VStr "2025-01-10T12:20:00")].

Definition flight_b : gmap string value :=
  list_to_map [("flight_id", VStr "FL002"); ("airline", VStr "Air India");
               ("from", VStr "delhi"); ("to", VStr "GOA"); ("price", VNum 5200);
               ("departure_time", VStr "soon");
               ("arrival_time", VStr "2025-01-10T15:00:00")].

Definition flight_c : gmap string value :=
  list_to_map [("flight_id", VStr "FL003"); ("airline", VStr "Vistara");
               ("from", VStr "Mumbai"); ("to", VStr "Goa"); ("price", VNum 3900);
               ("duration_hours", VNum (3 # 2))].

Definition flights : list value := [VDict flight_a; VDict flight_b; VDict flight_c].

Definition hotel_a : gmap string value :=
  list_to_map [("hotel_id", VStr "HT001"); ("name", VStr "Sea View");
               ("city", VStr "Goa"); ("stars", VNum 4);
               ("price_per_night", VNum 9000)].

Definition hotel_b : gmap string value :=
  list_to_map [("hotel_id", VStr "HT002"); ("name", VStr "Palm Court");
               ("city", VStr "goa"); ("stars", VNum 5);
               ("price_per_night", VNum 12000)].

Definition hotels : list value := [VDict hotel_a; VDict hotel_b].

Definition flight_query : string :=
  "{'source': 'Delhi', 'destination': 'Goa', 'preference': 'fastest'}".

Definition hotel_query_free : string :=
  "{'city': 'Goa', 'max_price_per_night': 0}".

Definition hotel_query_rating : string :=
  "{'city': 'Goa', 'min_rating': 4.5}".

Definition budget_query : string :=
  "{'flight_price': 4800, 'hotel_price_per_night': 3200, 'num_nights': 4, 'daily_expense': 2000}".

Definition flight_query_bad_source : string :=
  "{'source': 5, 'destination': 'Goa'}".

Definition budget_query_huge : string :=
  "{'flight_price': 1" +:+ repeat_str "0" 400 +:+ "}".

Definition hotels_document : string :=
  "[{'hotel_id': 'HT001', 'name': 'Sea View', 'city': 'Goa', 'stars': 4, 'price_per_night': 9000}, {'hotel_id': 'HT002', 'name': 'Palm Court', 'city': 'goa', 'stars': 5, 'price_per_night': 12000}]".

(** The documents the reader knows (written with single quotes here, as
    a Rocq string cannot hold a double quote). *)
Definition documents : list (string * value) := [
  (flight_query,
   VDict (list_to_map [("source", VStr "Delhi"); ("destination", VStr "Goa");
                       ("preference", VStr "fastest")]));
  (hotel_query_free,
   VDict (list_to_map [("city", VStr "Goa"); ("max_price_per_night", VNum 0)]));
  (hotel_query_rating,
   VDict (list_to_map [("city", VStr "Goa"); ("min_rating", VNum (9 # 2))]));
  (budget_query,
   VDict (list_to_map [("flight_price", VNum 4800);
                       ("hotel_price_per_night", VNum 3200);
                       ("num_nights", VNum 4); ("daily_expense", VNum 2000)]));
  (flight_query_bad_source,
   VDict (list_to_map [("source", VNum 5); ("destination", VStr "Goa")]));
  (budget_query_huge,
   VDict (list_to_map [("flight_price", VNum (inject_Z (10 ^ 400)))]));
  (hotels_document, VList hotels)
].

Definition loads (s : string) : result value :=
  match (list_to_map documents : gmap string value) !! s with
  | Some v => Ok v
  | None => raise JSONDecodeError "Expecting value: line 1 column 1 (char 0)"
  end.

Definition runtime : Python := {|
  json_loads := loads;
  str_lower := lower;
  str_strip := strip;
  str_title := fun s => s;
  int_of_str := int_of;
  float_of_str := fun s => inject_Z <$> int_of s;
  fromisoformat := isoformat;
  round1 := round_tenths;
  round0 := round_half_even;
  str_num := show_num;
  repr_container := fun _ => "[...]";
  fmt_comma := show_num;
  fmt_comma_0f := fun q => pretty (round_half_even q);
  strptime_ymd := fun s => parse_date (list_ascii_of_string s);
  requests_get_json := fun _ _ _ _ _ => raise RequestException "no network";
|}.

Definition settings : Settings := {|
  FLIGHTS_PATH := "data/flights.json";
  HOTELS_PATH := "data/hotels.json";
  PLACES_PATH := "data/places.json";
  WEATHER_API_URL := "https://api.open-meteo.com/v1/forecast";
  DEFAULT_DAILY_EXPENSE := 2000;
|}.


Definition goa_free : HotelRecommendationTool.request :=
  {| HotelRecommendationTool.city := "Goa";
     HotelRecommendationTool.min_rating := 3;
     HotelRecommendationTool.max_price := VNum 0 |}.

Definition goa_rated : HotelRecommendationTool.request :=
  {| HotelRecommendationTool.city := "Goa";
     HotelRecommendationTool.min_rating := 4;
     HotelRecommendationTool.max_price := VNone |}.

(** A process that has loaded both arrays, with no file on disk any
    more. *)
Definition loaded : world :=
  World ∅ (<["data/flights.json" := VList flights]>
           (<["data/hotels.json" := VList hotels]> ∅)).

(** A fresh process whose resource files are missing. *)
Definition unconfigured : world := World ∅ ∅.

(** A fresh process with the hotels file in place. *)
Definition fresh : world :=
  World {[ "data/hotels.json" := hotels_document ]} ∅.

(** The same process after its first load of the hotels. *)
Definition hotels_loaded : world :=
  World {[ "data/hotels.json" := hotels_document ]}
        (<["data/hotels.json" := VList hotels]> ∅).

End Example.

(** ** Vocabulary of the statements *)

Definition Qltb (a b : Q) : bool :=
  match (a ?= b)%Q with Lt => true | _ => false end.

(** Insertion sort with a pure comparison: what [sort_keyed] computes when
    no comparison raises. *)
Fixpoint insert_by {A} (lt : A -> A -> bool) (x : A) (l : list A) : list A :=
  match l with
  | [] => [x]
  | y :: l' => if lt y x then y :: insert_by lt x l' else x :: y :: l'
  end.

Fixpoint isort {A} (lt : A -> A -> bool) (l : list A) : list A :=
  match l with
  | [] => []
  | x :: l' => insert_by lt x (isort lt l')
  end.


(** The number under [key] in a record, [dflt] when the key is absent. *)
Definition num_field (key : string) (dflt : Q) (x : value) : Q :=
  match x with
  | VDict d =>
      match d !! key with
      | Some v => default 0%Q (as_num v)
      | None => dflt
      end
  | _ => dflt
  end.

(** The text under [key] in a record, empty when the key is absent. *)
Definition str_field (key : string) (x : value) : string :=
  match x with
  | VDict d => match d !! key with Some (VStr s) => s | _ => "" end
  | _ => ""
  end.

(** [x] is a record whose [key], when present, holds a number. *)
Definition num_or_absent (key : string) (x : value) : Prop :=
  exists d, x = VDict d /\
    match d !! key with Some v => is_Some (as_num v) | None => True end.

(** [x] is a record whose [key], when present, holds a text. *)
Definition str_or_absent (key : string) (x : value) : Prop :=
  exists d, x = VDict d /\
    match d !! key with Some (VStr _) | None => True | _ => False end.






(** The number a value counts as in a comparison of numbers. *)
Definition num_of (v : value) : Q := default 0%Q (as_num v).



Definition starts_with_Error (text : string) : Prop :=
  String.prefix "Error" text = true.

(** The hotel query in the words of its description: the city matches
    without regard to case, the stars reach the threshold, and the price is
    present and within the ceiling when a ceiling applies. *)
Definition hotel_in_city `{Python} (req : HotelRecommendationTool.request)
    (x : value) : bool :=
  bool_decide (str_lower (str_field "city" x)
               = str_lower (HotelRecommendationTool.city req)).

Definition hotel_rated (req : HotelRecommendationTool.request) (x : value) : bool :=
  Qle_bool (inject_Z (HotelRecommendationTool.min_rating req))
           (num_field "stars" 0 x).

Definition hotel_within_ceiling (req : HotelRecommendationTool.request)
    (x : value) : bool :=
  match x with
  | VDict d =>
      match d !! "price_per_night" with
      | Some p => Qle_bool (num_of p) (num_of (HotelRecommendationTool.max_price req))
      | None => false
      end
  | _ => false
  end.

(** The ceiling applies when the supplied value is truthy. *)
Definition hotel_affordable (req : HotelRecommendationTool.request)
    (x : value) : bool :=
  if py_truthy (HotelRecommendationTool.max_price req)
  then hotel_within_ceiling req x else true.

Definition hotel_survivors `{Python} (req : HotelRecommendationTool.request)
    (hotels : list value) : list value :=
  List.filter (fun x => hotel_in_city req x && hotel_rated req x
                        && hotel_affordable req x) hotels.

(** More stars first; among equal stars, the lower price first (a record
    without a price counts as price 0 here). *)
Definition hotel_before (a b : value) : Prop :=
  (num_field "stars" 0 b < num_field "stars" 0 a)%Q \/
  ((num_field "stars" 0 a == num_field "stars" 0 b)%Q /\
   (num_field "price_per_night" 0 a <= num_field "price_per_night" 0 b)%Q).

Definition hotel_typed (x : value) : Prop :=
  str_or_absent "city" x /\ num_or_absent "stars" x
  /\ num_or_absent "price_per_night" x.

(** The tuple [HotelRecommendationTool.sort_key] hands to [sorted]. *)
Definition hotel_sort_value (x : value) : value :=
  match x with
  | VDict d =>
      VList [VNum (- num_of (default (VNum 0) (d !! "stars")));
             default (VNum 0) (d !! "price_per_night")]
  | _ => VList [VNum 0; VNum 0]
  end.

(** [<] on two such tuples of numbers. *)
Definition pair_ltb (a b : value) : bool :=
  match a, b with
  | VList [a1; a2], VList [b1; b2] =>
      if Qeq_bool (num_of a1) (num_of b1)
      then Qltb (num_of a2) (num_of b2)
      else Qltb (num_of a1) (num_of b1)
  | _, _ => false
  end.

(** [int(r)] of a number: truncation toward zero. *)
Definition truncate (r : Q) : Z := Z.quot (Qnum r) (Z.pos (Qden r)).

(** ** Vocabulary of the further properties *)

(** A text parameter of a request: the text under [key], [dflt] when the
    key is absent; [None] when the key holds something else than a text. *)
Definition text_param (d : gmap string value) (key dflt : string) : option string :=
  match d !! key with
  | None => Some dflt
  | Some (VStr s) => Some s
  | Some _ => None
  end.

(** The label of [get_weather_condition] on two numbers. *)
Definition condition_of (precipitation windspeed : Q) : string :=
  if Qltb 10 precipitation then WeatherLookupTool.Rainy
  else if Qltb 2 precipitation then WeatherLookupTool.LightRain
  else if Qltb 30 windspeed then WeatherLookupTool.Windy
  else if Qltb 15 windspeed then WeatherLookupTool.Breezy
  else WeatherLookupTool.ClearSunny.

(** An array of the forecast response: the numbers [qs] under [key], or no
    such key (then [qs] is empty). *)
Definition numbers_or_absent (daily : gmap string value) (key : string)
    (qs : list Q) : Prop :=
  daily !! key = Some (VList (VNum <$> qs)) \/ (daily !! key = None /\ qs = []).

(** The entry of the forecast for the [i]-th date, by index alignment: a
    metric array that is too short gives no temperature, no precipitation
    and no wind. *)
Definition forecast_day `{Python} (dates : list value)
    (maxima minima precipitation windspeed : list Q) (i : nat)
  : WeatherLookupTool.day_info :=
  {| WeatherLookupTool.day_date := default VNone (dates !! i);
     WeatherLookupTool.temp_max :=
       match maxima !! i with
       | Some q => VNum (inject_Z (round0 q)) | None => VNone
       end;
     WeatherLookupTool.temp_min :=
       match minima !! i with
       | Some q => VNum (inject_Z (round0 q)) | None => VNone
       end;
     WeatherLookupTool.day_precipitation :=
       match precipitation !! i with
       | Some q => VNum (round1 q) | None => VNum 0
       end;
     WeatherLookupTool.day_windspeed :=
       match windspeed !! i with
       | Some q => VNum (round1 q) | None => VNum 0
       end;
     WeatherLookupTool.condition :=
       condition_of (default 0%Q (precipitation !! i))
                    (default 0%Q (windspeed !! i)) |}.


(** The float that is the whole number [p], with sign [s], for [p] below
    2^53: its mantissa has 53 bits. *)
Definition whole_pos (s : bool) (p : positive) : Float.float :=
  S754_finite s (Z.to_pos (Zpos p * 2 ^ (52 - Z.log2 (Zpos p))))%Z
              (Z.log2 (Zpos p) - 52)%Z.




(** * Proofs *)

(** ** The result monad *)

Lemma traverse_pure {A B} (f : A -> result B) (g : A -> B) (l : list A) :
  Forall (fun x => f x = Ok (g x)) l -> traverse f l = Ok (g <$> l).
Proof.
  induction 1 as [|x l Hx _ IH]; simpl; [done|].
  by rewrite Hx, IH.
Qed.


Lemma select_pure {A} (p : A -> result bool) (q : A -> bool) (l : list A) :
  Forall (fun x => p x = Ok (q x)) l -> select p l = Ok (List.filter q l).
Proof.
  induction 1 as [|x l Hx _ IH]; simpl; [done|].
  rewrite Hx, IH. simpl. by destruct (q x).
Qed.

(** ** Sorting *)

Section Sorting.
Context {A : Type} (lt : A -> A -> bool).

Lemma insert_by_perm x l : Permutation (insert_by lt x l) (x :: l).
Proof.
  induction l as [|y l IH]; simpl; [done|].
  destruct (lt y x); [|done].
  rewrite IH. apply perm_swap.
Qed.

Lemma isort_perm l : Permutation (isort lt l) l.
Proof.
  induction l as [|x l IH]; simpl; [done|].
  by rewrite insert_by_perm, IH.
Qed.




Section Order.
Context (le : A -> A -> Prop).
Hypothesis le_trans : forall x y z, le x y -> le y z -> le x z.
Hypothesis lt_le : forall x y, lt x y = true -> le x y.
Hypothesis nlt_le : forall x y, lt y x = false -> le x y.

Lemma insert_by_sorted x l :
  StronglySorted le l -> StronglySorted le (insert_by lt x l).
Proof.
  induction 1 as [|y l Hs IH Hy]; simpl.
  - repeat constructor.
  - destruct (lt y x) eqn:Hyx.
    + constructor; [done|].
      rewrite (insert_by_perm x l). constructor; [by apply lt_le|done].
    + assert (le x y) by by apply nlt_le.
      constructor; [by constructor|].
      constructor; [done|].
      eapply Forall_impl; [exact Hy|]. intros z Hz. by eapply le_trans.
Qed.

Lemma isort_sorted l : StronglySorted le (isort lt l).
Proof.
  induction l as [|x l IH]; simpl; [constructor|].
  by apply insert_by_sorted.
Qed.
End Order.
End Sorting.

Lemma insert_by_map {A B} (f : A -> B) (lt : B -> B -> bool) x l :
  insert_by lt (f x) (f <$> l) = f <$> insert_by (fun a b => lt (f a) (f b)) x l.
Proof.
  induction l as [|y l IH]; csimpl; [done|].
  destruct (lt (f y) (f x)); csimpl; [|done]. by rewrite IH.
Qed.

Lemma isort_map {A B} (f : A -> B) (lt : B -> B -> bool) l :
  isort lt (f <$> l) = f <$> isort (fun a b => lt (f a) (f b)) l.
Proof.
  induction l as [|x l IH]; csimpl; [done|].
  by rewrite IH, insert_by_map.
Qed.

(** ** Comparisons of numbers *)

Lemma Qltb_lt a b : Qltb a b = true <-> (a < b)%Q.
Proof. unfold Qltb. destruct (Qcompare_spec a b); split; (done || lra). Qed.

Lemma Qltb_ge a b : Qltb a b = false <-> (b <= a)%Q.
Proof. unfold Qltb. destruct (Qcompare_spec a b); split; (done || lra). Qed.

Lemma Qle_bool_false a b : Qle_bool a b = false <-> (b < a)%Q.
Proof.
  rewrite <- not_true_iff_false, Qle_bool_iff. split; [apply Qnot_le_lt|apply Qlt_not_le].
Qed.

Lemma py_compare_num x y p q :
  as_num x = Some p -> as_num y = Some q -> py_compare x y = Ok (p ?= q)%Q.
Proof.
  intros Hx Hy.
  destruct x, y; simpl in *; try discriminate;
    injection Hx as <-; injection Hy as <-; reflexivity.
Qed.


Lemma py_ge_num x y p q :
  as_num x = Some p -> as_num y = Some q -> py_ge x y = Ok (Qle_bool q p).
Proof.
  intros Hx Hy. unfold py_ge. rewrite (py_compare_num _ _ _ _ Hx Hy). simpl.
  f_equal. symmetry.
  destruct (Qcompare_spec p q);
    (apply Qle_bool_iff || apply Qle_bool_false); lra.
Qed.

Lemma py_le_num x y p q :
  as_num x = Some p -> as_num y = Some q -> py_le x y = Ok (Qle_bool p q).
Proof.
  intros Hx Hy. unfold py_le. by rewrite (py_compare_num _ _ _ _ Hx Hy).
Qed.

Lemma py_gt_num x y p q :
  as_num x = Some p -> as_num y = Some q -> py_gt x y = Ok (Qltb q p).
Proof.
  intros Hx Hy. unfold py_gt. rewrite (py_compare_num _ _ _ _ Hx Hy). simpl.
  f_equal. symmetry.
  destruct (Qcompare_spec p q);
    (apply Qltb_lt || apply Qltb_ge); lra.
Qed.

(** ** [sorted] on keys that compare *)

Section SortedPure.
Context `{Python}.

Lemma insert_keyed_pure {A} (lt : value -> value -> bool) (x : value * A) l :
  (forall y, y ∈ l -> py_lt y.1 x.1 = Ok (lt y.1 x.1)) ->
  insert_keyed x l = Ok (insert_by (fun a b => lt a.1 b.1) x l).
Proof.
  induction l as [|y l IH]; intros Hl; simpl; [done|].
  rewrite Hl by left. simpl.
  destruct (lt y.1 x.1); [|done].
  rewrite IH; [done|]. intros z Hz. apply Hl. by right.
Qed.

Lemma sort_keyed_pure {A} (lt : value -> value -> bool) (l : list (value * A)) :
  (forall x y, x ∈ l -> y ∈ l -> py_lt x.1 y.1 = Ok (lt x.1 y.1)) ->
  sort_keyed l = Ok (isort (fun a b => lt a.1 b.1) l).
Proof.
  induction l as [|x l IH]; intros Hl; simpl; [done|].
  rewrite IH by (intros; apply Hl; by right). simpl.
  apply insert_keyed_pure. intros y Hy. apply Hl; [|left].
  right. by rewrite <- (isort_perm (fun a b => lt a.1 b.1) l).
Qed.

Lemma py_sorted_pure {A} (key : A -> result value) (k : A -> value)
    (lt : value -> value -> bool) (l : list A) :
  Forall (fun x => key x = Ok (k x)) l ->
  (forall x y, x ∈ l -> y ∈ l -> py_lt (k x) (k y) = Ok (lt (k x) (k y))) ->
  py_sorted key l = Ok (isort (fun x y => lt (k x) (k y)) l).
Proof.
  intros Hk Hlt. unfold py_sorted.
  rewrite (traverse_pure _ (fun x => (k x, x))).
  2:{ eapply Forall_impl; [exact Hk|]. intros x ->. done. }
  simpl. rewrite (sort_keyed_pure lt).
  2:{ intros x y [x' [-> Hx]]%list_elem_of_fmap [y' [-> Hy]]%list_elem_of_fmap.
      simpl. by apply Hlt. }
  simpl. f_equal.
  rewrite (isort_map (fun x => (k x, x)) (fun a b => lt a.1 b.1)).
  rewrite <- list_fmap_compose. simpl. apply list_fmap_id.
Qed.
End SortedPure.





(** ** The flight query *)

Section Flights.
Context `{Python} (settings : Settings).
Import FlightSearchTool.






End Flights.

(** ** The loader *)

Section Loader.
Context `{Python}.
Import DataLoader.

Lemma load_json_hit p w d :
  cache w !! p = Some d -> load_json p w = (Ok d, w).
Proof. intros Hc. unfold load_json. by rewrite Hc. Qed.

(** Whatever a load does, the files stay, cached arrays stay, and a
    returned array is the one the cache holds for the path. *)
Lemma load_json_effect p w r w' :
  load_json p w = (r, w') ->
  files w' = files w /\
  (forall q d, cache w !! q = Some d -> cache w' !! q = Some d) /\
  (forall d, r = Ok d -> cache w' !! p = Some d).
Proof.
  unfold load_json. destruct (cache w !! p) as [c|] eqn:Hc.
  { intros [= <- <-]. split; [done|]. split; [done|]. by intros d [= <-]. }
  destruct (files w !! p) as [text|]; [|by intros [= <- <-]].
  destruct (json_loads text) as [data|e]; [|by intros [= <- <-]].
  assert (forall q d, cache w !! q = Some d ->
                      (<[p:=data]> (cache w) : gmap string value) !! q = Some d) as Hkeep.
  { intros q d Hq. rewrite lookup_insert_ne; [done|]. congruence. }
  destruct (py_len data); intros [= <- <-]; simpl;
    (split; [done|]); (split; [done|]); try done.
  intros d [= <-]. apply lookup_insert_eq.
Qed.
End Loader.

(** ** What the queries do to the cache *)


Section CacheEffects.
Context `{Python} (settings : Settings).








End CacheEffects.

(** ** Loading twice *)

Section LoadTwice.
Context `{Python}.
Import DataLoader.

(** C9.  A load that returns an array has it in the cache under the path:
    when it was not cached before, the array is the parsed content of the
    file and the cache has grown by exactly this entry; every later load
    of the path returns the same array and leaves the world as it is,
    whatever the files on disk have become (the file is not read again);
    in particular loading twice returns what loading once returns. *)
Theorem load_json_idempotent (p : string) (w w1 : world) (d : value) :
  load_json p w = (Ok d, w1) ->
  (cache w !! p = None ->
     exists text, files w !! p = Some text /\ json_loads text = Ok d /\
                  cache w1 = <[p := d]> (cache w)) /\
  (forall fs, load_json p (World fs (cache w1)) = (Ok d, World fs (cache w1))) /\
  load_json p w1 = (Ok d, w1).
Proof.
  intros Hload.
  pose proof (load_json_effect _ _ _ _ Hload) as (_ & _ & Hc).
  specialize (Hc d eq_refl).
  split; [|split].
  - intros Hmiss. unfold load_json in Hload. rewrite Hmiss in Hload.
    destruct (files w !! p) as [text|]; [|done].
    exists text. destruct (json_loads text) as [data|]; [|done].
    destruct (py_len data); [|done].
    by injection Hload as <- <-.
  - intros fs. by apply load_json_hit.
  - by apply load_json_hit.
Qed.
End LoadTwice.

(** ** Exceptions never leave a tool *)

Lemma prefix_app (a b c : string) :
  String.prefix a b = true -> String.prefix a (b +:+ c) = true.
Proof.
  revert b. induction a as [|x a IH]; intros [|y b]; simpl; try done.
  - intros _. by destruct c.
  - destruct (ascii_dec x y); [apply IH|done].
Qed.


Lemma try_except_error inv pre e w :
  starts_with_Error inv -> starts_with_Error pre ->
  exists text, try_except inv pre (Raise e, w) = (Ok text, w) /\
               starts_with_Error text.
Proof.
  intros Hinv Hpre. destruct e as [c msg].
  destruct c; simpl; eexists; (split; [done|]); try done;
    by apply prefix_app.
Qed.

Lemma tool_never_raises inv pre (body : string -> world -> result string * world)
    q w :
  starts_with_Error inv -> starts_with_Error pre ->
  exists text w', try_except inv pre (body q w) = (Ok text, w') /\
    ((exists e, (body q w).1 = Raise e) -> starts_with_Error text).
Proof.
  intros Hinv Hpre. destruct (body q w) as [[text|e] w'] eqn:Hbody.
  - exists text, w'. split; [done|]. by intros [e [=]].
  - destruct (try_except_error inv pre e w' Hinv Hpre) as (text & Heq & Herr).
    by exists text, w'.
Qed.




Section NeverRaise.
Context `{Python} (settings : Settings).












(** C4 as the code has it.  A load of a path that is neither cached nor on
    disk raises [FileNotFoundError]; inside a query tool the load sits in
    the [try] block, so the tool's handler turns the exception into the
    tool's error text and the tool returns normally. *)
Theorem missing_resource_is_reported (w : world) :
  (forall p, cache w !! p = None -> files w !! p = None ->
     DataLoader.load_json p w
     = (raise FileNotFoundError ("Data file not found: " +:+ p), w)) /\
  (forall q req,
     FlightSearchTool.read_request q = Ok (inr req) ->
     cache w !! FLIGHTS_PATH settings = None ->
     files w !! FLIGHTS_PATH settings = None ->
     FlightSearchTool._run settings q w
     = (Ok ("Error searching flights: " +:+ "Data file not found: "
            +:+ FLIGHTS_PATH settings), w)) /\
  (forall q req,
     HotelRecommendationTool.read_request q = Ok (inr req) ->
     cache w !! HOTELS_PATH settings = None ->
     files w !! HOTELS_PATH settings = None ->
     HotelRecommendationTool._run settings q w
     = (Ok ("Error searching hotels: " +:+ "Data file not found: "
            +:+ HOTELS_PATH settings), w)) /\
  (forall q req,
     PlacesDiscoveryTool.read_request q = Ok (inr req) ->
     cache w !! PLACES_PATH settings = None ->
     files w !! PLACES_PATH settings = None ->
     PlacesDiscoveryTool._run settings q w
     = (Ok ("Error searching places: " +:+ "Data file not found: "
            +:+ PLACES_PATH settings), w)).
Proof.
  assert (forall p, cache w !! p = None -> files w !! p = None ->
     DataLoader.load_json p w
     = (raise FileNotFoundError ("Data file not found: " +:+ p), w)) as Hload.
  { intros p Hc Hf. unfold DataLoader.load_json. by rewrite Hc, Hf. }
  split; [done|].
  split; [|split]; intros q req Hreq Hc Hf.
  - unfold FlightSearchTool._run, FlightSearchTool.body.
    by rewrite Hreq, (Hload _ Hc Hf).
  - unfold HotelRecommendationTool._run, HotelRecommendationTool.body.
    by rewrite Hreq, (Hload _ Hc Hf).
  - unfold PlacesDiscoveryTool._run, PlacesDiscoveryTool.body.
    by rewrite Hreq, (Hload _ Hc Hf).
Qed.
End NeverRaise.

(** ** The hotel query *)

Lemma filter_filter_andb {A} (p q : A -> bool) (l : list A) :
  List.filter q (List.filter p l) = List.filter (fun x => p x && q x) l.
Proof.
  induction l as [|x l IH]; simpl; [done|].
  destruct (p x); simpl; [|done]. destruct (q x); by rewrite IH.
Qed.

Lemma Forall_list_filter {A} (P : A -> Prop) (p : A -> bool) (l : list A) :
  Forall P l -> Forall P (List.filter p l).
Proof.
  induction 1 as [|x l Hx _ IH]; simpl; [constructor|].
  destruct (p x); [by constructor|done].
Qed.

Lemma py_eq_num x y p q :
  as_num x = Some p -> as_num y = Some q -> py_eq x y = Qeq_bool p q.
Proof.
  intros Hx Hy.
  destruct x, y; simpl in *; try discriminate;
    injection Hx as <-; injection Hy as <-; reflexivity.
Qed.

Lemma py_lt_pair a1 a2 b1 b2 :
  is_Some (as_num a1) -> is_Some (as_num a2) ->
  is_Some (as_num b1) -> is_Some (as_num b2) ->
  py_lt (VList [a1; a2]) (VList [b1; b2])
  = Ok (pair_ltb (VList [a1; a2]) (VList [b1; b2])).
Proof.
  intros [p1 H1] [p2 H2] [q1 G1] [q2 G2].
  unfold py_lt, pair_ltb, num_of. simpl.
  rewrite (py_eq_num _ _ _ _ H1 G1), (py_eq_num _ _ _ _ H2 G2), H1, H2, G1, G2.
  simpl. destruct (Qeq_bool p1 q1) eqn:E1.
  - destruct (Qeq_bool p2 q2) eqn:E2.
    + simpl. f_equal. symmetry. apply Qltb_ge. apply Qeq_bool_iff in E2. lra.
    + by rewrite (py_compare_num _ _ _ _ H2 G2).
  - by rewrite (py_compare_num _ _ _ _ H1 G1).
Qed.

Section Hotels.
Context `{Python} (settings : Settings).
Import HotelRecommendationTool.

Lemma in_city_typed req x :
  str_or_absent "city" x -> in_city req x = Ok (hotel_in_city req x).
Proof.
  intros (d & -> & Hd). unfold in_city, hotel_in_city, str_field. simpl.
  destruct (d !! "city") as [[]|]; simpl in *; done.
Qed.

Lemma rated_typed req x :
  num_or_absent "stars" x -> rated req x = Ok (hotel_rated req x).
Proof.
  intros (d & -> & Hd). unfold rated, hotel_rated, num_field. simpl.
  destruct (d !! "stars") as [v|]; simpl in *.
  - destruct Hd as [q Hq]. rewrite Hq. simpl. by apply py_ge_num.
  - by apply py_ge_num.
Qed.

Lemma within_price_typed req x :
  is_Some (as_num (max_price req)) ->
  num_or_absent "price_per_night" x ->
  within_price req x = Ok (hotel_within_ceiling req x).
Proof.
  intros [m Hm] (d & -> & Hd). unfold within_price, hotel_within_ceiling, num_of.
  destruct (d !! "price_per_night") as [v|]; simpl in *.
  - destruct Hd as [q Hq]. rewrite Hq, Hm. simpl. by apply py_le_num.
  - by rewrite Hm.
Qed.

Lemma hotel_sort_value_shape x :
  exists a b, hotel_sort_value x = VList [a; b] /\
              num_of a = (- num_field "stars" 0 x)%Q /\
              num_of b = num_field "price_per_night" 0 x.
Proof.
  destruct x as [| | | | |d]; try (by eexists _, _).
  unfold hotel_sort_value, num_field, num_of. eexists _, _.
  split; [done|]. simpl.
  by destruct (d !! "stars"), (d !! "price_per_night").
Qed.

Lemma sort_key_typed x :
  num_or_absent "stars" x -> num_or_absent "price_per_night" x ->
  sort_key x = Ok (hotel_sort_value x) /\
  exists a b, hotel_sort_value x = VList [a; b] /\
              is_Some (as_num a) /\ is_Some (as_num b).
Proof.
  intros (d & -> & Hs) (d' & [= <-] & Hp).
  unfold sort_key, hotel_sort_value, num_of, py_neg. simpl.
  assert (is_Some (as_num (default (VNum 0) (d !! "stars")))) as [qs Hqs]
    by (by destruct (d !! "stars")).
  assert (is_Some (as_num (default (VNum 0) (d !! "price_per_night")))) as Hqp
    by (by destruct (d !! "price_per_night")).
  rewrite Hqs. simpl. split; [done|]. by eexists _, _.
Qed.

Lemma hotel_before_trans x y z :
  hotel_before x y -> hotel_before y z -> hotel_before x z.
Proof.
  unfold hotel_before.
  intros [?|[? ?]] [?|[? ?]]; [left; lra ..|right; split; lra].
Qed.

Lemma pair_ltb_before x y :
  (pair_ltb (hotel_sort_value x) (hotel_sort_value y) = true -> hotel_before x y) /\
  (pair_ltb (hotel_sort_value y) (hotel_sort_value x) = false -> hotel_before x y).
Proof.
  destruct (hotel_sort_value_shape x) as (a1 & a2 & -> & Ha1 & Ha2).
  destruct (hotel_sort_value_shape y) as (b1 & b2 & -> & Hb1 & Hb2).
  unfold pair_ltb, hotel_before. rewrite Ha1, Ha2, Hb1, Hb2.
  split.
  - destruct (Qeq_bool _ _) eqn:E.
    + apply Qeq_bool_iff in E. intros L%Qltb_lt. right. split; lra.
    + intros L%Qltb_lt. left. lra.
  - destruct (Qeq_bool _ _) eqn:E.
    + apply Qeq_bool_iff in E. intros L%Qltb_ge. right. split; lra.
    + apply Qeq_bool_neq in E. intros L%Qltb_ge. left.
      destruct (Qlt_le_dec (num_field "stars" 0 y) (num_field "stars" 0 x)); [done|].
      exfalso. apply E. lra.
Qed.
End Hotels.

Section HotelQuery.
Context `{Python} (settings : Settings).
Import HotelRecommendationTool.

Lemma hotel_sorted_typed (l : list value) :
  Forall hotel_typed l ->
  exists sorted,
    py_sorted sort_key l = Ok sorted /\
    Permutation sorted l /\ StronglySorted hotel_before sorted.
Proof.
  intros Htyped.
  exists (isort (fun x y => pair_ltb (hotel_sort_value x) (hotel_sort_value y)) l).
  split; [|split].
  - apply (py_sorted_pure _ hotel_sort_value pair_ltb).
    + eapply Forall_impl; [exact Htyped|].
      intros x (_ & Hs & Hp). by apply sort_key_typed.
    + intros x y Hx Hy. rewrite Forall_forall in Htyped.
      destruct (Htyped x Hx) as (_ & Hxs & Hxp).
      destruct (Htyped y Hy) as (_ & Hys & Hyp).
      destruct (sort_key_typed x Hxs Hxp) as (_ & a1 & a2 & -> & ? & ?).
      destruct (sort_key_typed y Hys Hyp) as (_ & b1 & b2 & -> & ? & ?).
      by apply py_lt_pair.
  - apply isort_perm.
  - apply isort_sorted.
    + apply hotel_before_trans.
    + intros x y. apply pair_ltb_before.
    + intros x y. apply pair_ltb_before.
Qed.

(** The three filters on typed records. *)
Lemma hotel_filters_typed req (hotels : list value) :
  Forall hotel_typed hotels ->
  max_price req = VNone \/ is_Some (as_num (max_price req)) ->
  select (in_city req) hotels = Ok (List.filter (hotel_in_city req) hotels) /\
  (filtered ← select (rated req) (List.filter (hotel_in_city req) hotels);
   if py_truthy (max_price req) then select (within_price req) filtered
   else Ok filtered)
  = Ok (hotel_survivors req hotels).
Proof.
  intros Htyped Hm. split.
  { apply select_pure. eapply Forall_impl; [exact Htyped|].
    intros x (Hc & _). by apply in_city_typed. }
  rewrite (select_pure _ (hotel_rated req)).
  2:{ apply Forall_list_filter. eapply Forall_impl; [exact Htyped|].
      intros x (_ & Hs & _). by apply rated_typed. }
  simpl. unfold hotel_survivors, hotel_affordable.
  rewrite filter_filter_andb.
  destruct (py_truthy (max_price req)) eqn:Htruthy.
  - destruct Hm as [Hm|Hm]; [by rewrite Hm in Htruthy|].
    rewrite (select_pure _ (hotel_within_ceiling req)).
    2:{ apply Forall_list_filter. eapply Forall_impl; [exact Htyped|].
        intros x (_ & _ & Hp). by apply within_price_typed. }
    by rewrite filter_filter_andb.
  - f_equal. apply filter_ext. intros x. by rewrite andb_true_r.
Qed.

Lemma hotel_search_typed req (hotels : list value) :
  Forall hotel_typed hotels ->
  max_price req = VNone \/ is_Some (as_num (max_price req)) ->
  exists o, search req (VList hotels) = Ok o /\
    match o with
    | NoHotelsInCity => List.filter (hotel_in_city req) hotels = []
    | NoHotelsMatching =>
        List.filter (hotel_in_city req) hotels <> [] /\
        hotel_survivors req hotels = []
    | Found total top_hotels =>
        hotel_survivors req hotels <> [] /\
        total = length (hotel_survivors req hotels) /\
        exists sorted,
          top_hotels = take 3 sorted /\
          Permutation sorted (hotel_survivors req hotels) /\
          StronglySorted hotel_before sorted
    end.
Proof.
  intros Htyped Hm.
  destruct (hotel_filters_typed req hotels Htyped Hm) as (Hcity & Hrest).
  unfold search. simpl. rewrite Hcity. simpl.
  case_bool_decide as Hnone; [by exists NoHotelsInCity|].
  destruct (select (rated req) _) as [rated_hotels|]; [|done].
  simpl in Hrest |- *. rewrite Hrest. simpl.
  case_bool_decide as Hnomatch; [by exists NoHotelsMatching|].
  destruct (hotel_sorted_typed (hotel_survivors req hotels))
    as (sorted & Hsorted & Hperm & Hord).
  { by apply Forall_list_filter. }
  rewrite Hsorted. simpl. eexists. split; [done|]. simpl.
  split; [done|]. split; [by apply Permutation_length|]. by exists sorted.
Qed.
End HotelQuery.

Section HotelClaims.
Context `{Python} (settings : Settings).
Import HotelRecommendationTool.

(** C7 as the code has it.  For a request with a city, a minimum rating
    [r] (3 when absent) and a ceiling that is absent, [None] or a number,
    over typed hotel records: the threshold is [int(r)], [r] truncated
    toward zero; the ceiling applies only when its value is truthy, and
    then keeps the records that have a price at most the ceiling; the
    answer reports "no hotels in the city" when no record matches the
    city, "no hotels matching" when the three filters leave nothing, and
    otherwise the number of survivors and the first three of them in the
    order more stars first, lower price first among equal stars. *)
Theorem hotel_selection_and_order (q : string) (d : gmap string value) (c : string) (r : Q)
    (w w1 : world) (hotels : list value) :
  json_loads q = Ok (VDict d) ->
  d !! "city" = Some (VStr c) ->
  str_strip c <> "" ->
  d !! "min_rating" = Some (VNum r) \/ (d !! "min_rating" = None /\ r = 3%Q) ->
  default VNone (d !! "max_price_per_night") = VNone \/
    is_Some (as_num (default VNone (d !! "max_price_per_night"))) ->
  DataLoader.load_json (HOTELS_PATH settings) w = (Ok (VList hotels), w1) ->
  Forall hotel_typed hotels ->
  let req := {| city := str_strip c; min_rating := truncate r;
                max_price := default VNone (d !! "max_price_per_night") |} in
  exists o,
    body settings q w = (render req o, w1) /\
    match o with
    | NoHotelsInCity => List.filter (hotel_in_city req) hotels = []
    | NoHotelsMatching =>
        List.filter (hotel_in_city req) hotels <> [] /\
        hotel_survivors req hotels = []
    | Found total top_hotels =>
        hotel_survivors req hotels <> [] /\
        total = length (hotel_survivors req hotels) /\
        exists sorted,
          top_hotels = take 3 sorted /\
          Permutation sorted (hotel_survivors req hotels) /\
          StronglySorted hotel_before sorted
    end.
Proof.
  intros Hjson Hcity Hne Hr Hm Hload Htyped req.
  assert (read_request q = Ok (inr req)) as Hreq.
  { unfold read_request. rewrite Hjson. simpl. rewrite Hcity. simpl.
    assert (py_int (default (VNum 3) (d !! "min_rating")) = Ok (truncate r)) as ->.
    { by destruct Hr as [-> | [-> ->]]. }
    simpl. by rewrite bool_decide_eq_false_2. }
  destruct (hotel_search_typed req hotels Htyped Hm) as (o & Hsearch & Ho).
  exists o. split; [|done].
  unfold body. by rewrite Hreq, Hload, Hsearch.
Qed.

(** C10.  A ceiling that is falsy (0 in particular) filters nothing: the
    query answers as if no ceiling had been supplied, and over typed
    hotel records the survivors are exactly the records of the city that
    reach the rating, whatever their price. *)
Theorem falsy_ceiling_is_no_ceiling (req : request) (hotels : value) :
  py_truthy (max_price req) = false ->
  search req hotels
  = search {| city := city req; min_rating := min_rating req;
              max_price := VNone |} hotels
  /\ (forall l, hotels = VList l -> Forall hotel_typed l ->
      let passing :=
        List.filter (fun x => hotel_in_city req x && hotel_rated req x) l in
      exists o, search req hotels = Ok o /\
        match o with
        | NoHotelsInCity => List.filter (hotel_in_city req) l = []
        | NoHotelsMatching => passing = []
        | Found total top_hotels =>
            total = length passing /\
            exists sorted, top_hotels = take 3 sorted /\
                           Permutation sorted passing
        end)
  /\ py_truthy (VNum 0) = false.
Proof.
  intros Hfalsy.
  assert (search req hotels
          = search {| city := city req; min_rating := min_rating req;
                      max_price := VNone |} hotels) as Hsame.
  { unfold search. simpl. by rewrite Hfalsy. }
  split; [done|]. split; [|done].
  intros l -> Htyped passing. rewrite Hsame.
  destruct (hotel_search_typed
              {| city := city req; min_rating := min_rating req;
                 max_price := VNone |} l Htyped) as (o & Hsearch & Ho);
    [by left|].
  assert (hotel_survivors {| city := city req; min_rating := min_rating req;
                             max_price := VNone |} l = passing) as Hsurv.
  { unfold hotel_survivors, passing. apply filter_ext. intros x.
    unfold hotel_affordable. simpl. by rewrite andb_true_r. }
  exists o. split; [done|]. rewrite Hsurv in Ho.
  destruct o as [| |total top_hotels]; [done|by destruct Ho|].
  destruct Ho as (_ & Htotal & sorted & Htop & Hperm & _).
  split; [done|]. by exists sorted.
Qed.
End HotelClaims.

(** ** Floats that are whole numbers

    On whole numbers below 2^53 the operations on floats do not round. *)

Section WholeFloats.
Open Scope Z_scope.

Lemma digits2_size p : digits2_pos p = Pos.size p.
Proof. induction p; simpl; congruence. Qed.

Lemma digits_log2 p : Zpos (digits2_pos p) = Z.log2 (Zpos p) + 1.
Proof.
  rewrite digits2_size. destruct p; simpl; rewrite ?Pos2Z.inj_succ; try lia.
Qed.


Lemma digits_bound p d :
  0 <= d -> Zpos p < 2 ^ d -> Zpos (digits2_pos p) <= d.
Proof.
  intros Hd Hp. rewrite digits_log2.
  enough (Z.log2 (Zpos p) < d) by lia. by apply Z.log2_lt_pow2.
Qed.

Lemma digits_mono p q :
  (p <= q)%positive -> Zpos (digits2_pos p) <= Zpos (digits2_pos q).
Proof.
  intros Hpq. rewrite !digits_log2.
  enough (Z.log2 (Zpos p) <= Z.log2 (Zpos q)) by lia.
  apply Z.log2_le_mono. lia.
Qed.










Lemma whole_pos_finite s p : Float.is_finite (whole_pos s p) = true.
Proof. reflexivity. Qed.














End WholeFloats.

(** ** The budget *)

Section Budget.
Context `{Python} (settings : Settings).
Import BudgetEstimationTool.








End Budget.

(** ** The weather condition *)

Lemma py_gt_VNum a b : py_gt (VNum a) (VNum b) = Ok (Qltb b a).
Proof. by apply py_gt_num. Qed.

(** C5.  The label follows the fixed order of tests: precipitation above
    10, else precipitation above 2, else wind above 30, else wind above 15,
    else clear. *)
Theorem weather_condition_order (p w : Q) :
  ((10 < p)%Q ->
     WeatherLookupTool.get_weather_condition (VNum p) (VNum w)
     = Ok WeatherLookupTool.Rainy) /\
  ((p <= 10)%Q -> (2 < p)%Q ->
     WeatherLookupTool.get_weather_condition (VNum p) (VNum w)
     = Ok WeatherLookupTool.LightRain) /\
  ((p <= 2)%Q -> (30 < w)%Q ->
     WeatherLookupTool.get_weather_condition (VNum p) (VNum w)
     = Ok WeatherLookupTool.Windy) /\
  ((p <= 2)%Q -> (w <= 30)%Q -> (15 < w)%Q ->
     WeatherLookupTool.get_weather_condition (VNum p) (VNum w)
     = Ok WeatherLookupTool.Breezy) /\
  ((p <= 2)%Q -> (w <= 15)%Q ->
     WeatherLookupTool.get_weather_condition (VNum p) (VNum w)
     = Ok WeatherLookupTool.ClearSunny) /\
  WeatherLookupTool.get_weather_condition (VNum 12) (VNum w)
  = Ok WeatherLookupTool.Rainy /\
  WeatherLookupTool.get_weather_condition (VNum 5) (VNum w)
  = Ok WeatherLookupTool.LightRain /\
  WeatherLookupTool.get_weather_condition (VNum 0) (VNum 20)
  = Ok WeatherLookupTool.Breezy /\
  WeatherLookupTool.get_weather_condition (VNum 0) (VNum 5)
  = Ok WeatherLookupTool.ClearSunny.
Proof.
  unfold WeatherLookupTool.get_weather_condition.
  rewrite !py_gt_VNum. simpl.
  repeat split; try done; intros;
    repeat match goal with
           | |- context [Qltb ?a ?b] =>
               let E := fresh "E" in
               destruct (Qltb a b) eqn:E;
               [apply Qltb_lt in E|apply Qltb_ge in E]; simpl; try lra
           end; done.
Qed.

(** ** The tools at work on concrete inputs *)

Section Examples.
Import Example.






(** C4: with the flights file missing the flight tool returns a text;
    no exception leaves it. *)
Lemma missing_flights_file_is_answered :
  DataLoader.load_json (H:=runtime) "data/flights.json" unconfigured
  = (raise FileNotFoundError "Data file not found: data/flights.json",
     unconfigured) /\
  FlightSearchTool._run (H:=runtime) settings flight_query unconfigured
  = (Ok "Error searching flights: Data file not found: data/flights.json",
     unconfigured) /\
  ~ exists e w',
      FlightSearchTool._run (H:=runtime) settings flight_query unconfigured
      = (Raise e, w').
Proof.
  split; [reflexivity|]. split; [reflexivity|].
  intros (e & w' & E). discriminate E.
Qed.

Lemma missing_resource_is_reported_witness :
  HotelRecommendationTool._run (H:=runtime) settings hotel_query_free unconfigured
  = (Ok ("Error searching hotels: " +:+ "Data file not found: "
         +:+ HOTELS_PATH settings), unconfigured).
Proof.
  destruct (missing_resource_is_reported (H:=runtime) settings unconfigured)
    as (_ & _ & Hhotels & _).
  apply (Hhotels hotel_query_free
           {| HotelRecommendationTool.city := "Goa";
              HotelRecommendationTool.min_rating := 3;
              HotelRecommendationTool.max_price := VNum 0 |});
    reflexivity.
Defined.

Lemma weather_condition_order_witness :
  WeatherLookupTool.get_weather_condition (VNum (25 # 2)) (VNum 40)
  = Ok WeatherLookupTool.Rainy.
Proof.
  destruct (weather_condition_order (25 # 2) 40) as (Hrainy & _).
  apply Hrainy. reflexivity.
Defined.

End Examples.

Section MoreExamples.
Import Example.

(** C7: a ceiling of 0 keeps a hotel at 9000 a night, and a minimum
    rating of 4.5 keeps a hotel of 4 stars. *)
Lemma hotel_ceiling_zero_and_fractional_rating :
  (HotelRecommendationTool.read_request (H:=runtime) hotel_query_free
   = Ok (inr goa_free) /\
   HotelRecommendationTool.search (H:=runtime) goa_free (VList hotels)
   = Ok (HotelRecommendationTool.Found 2 [VDict hotel_b; VDict hotel_a]) /\
   hotel_a !! "price_per_night" = Some (VNum 9000) /\
   ~ (9000 <= 0)%Q) /\
  (json_loads (Python:=runtime) hotel_query_rating
   = Ok (VDict (list_to_map [("city", VStr "Goa"); ("min_rating", VNum (9 # 2))])) /\
   HotelRecommendationTool.read_request (H:=runtime) hotel_query_rating
   = Ok (inr goa_rated) /\
   HotelRecommendationTool.search (H:=runtime) goa_rated (VList hotels)
   = Ok (HotelRecommendationTool.Found 2 [VDict hotel_b; VDict hotel_a]) /\
   hotel_a !! "stars" = Some (VNum 4) /\
   ~ (9 # 2 <= 4)%Q).
Proof.
  split; (split; [reflexivity|]); repeat (split; [reflexivity|]);
    intros Hle; vm_compute in Hle; by apply Hle.
Qed.

Lemma hotel_selection_and_order_witness :
  exists o,
    HotelRecommendationTool.body (H:=runtime) settings hotel_query_rating loaded
    = (HotelRecommendationTool.render (H:=runtime)
         {| HotelRecommendationTool.city := str_strip (Python:=runtime) "Goa";
            HotelRecommendationTool.min_rating := truncate (9 # 2);
            HotelRecommendationTool.max_price := VNone |} o, loaded).
Proof.
  destruct (hotel_selection_and_order (H:=runtime) settings hotel_query_rating
              (list_to_map [("city", VStr "Goa"); ("min_rating", VNum (9 # 2))])
              "Goa" (9 # 2) loaded loaded hotels) as (o & Hbody & _).
  - reflexivity.
  - reflexivity.
  - discriminate.
  - left. reflexivity.
  - left. reflexivity.
  - reflexivity.
  - repeat constructor; eexists; (split; [reflexivity|]); vm_compute;
      try exact I; eexists; reflexivity.
  - exists o. exact Hbody.
Defined.

Lemma falsy_ceiling_is_no_ceiling_witness :
  HotelRecommendationTool.search (H:=runtime) goa_free (VList hotels)
  = HotelRecommendationTool.search (H:=runtime)
      {| HotelRecommendationTool.city := "Goa";
         HotelRecommendationTool.min_rating := 3;
         HotelRecommendationTool.max_price := VNone |} (VList hotels).
Proof.
  apply (falsy_ceiling_is_no_ceiling (H:=runtime) goa_free (VList hotels)).
  reflexivity.
Defined.



Lemma load_json_idempotent_witness :
  DataLoader.load_json (H:=runtime) "data/hotels.json" fresh
  = (Ok (VList hotels), hotels_loaded)
  /\ DataLoader.load_json (H:=runtime) "data/hotels.json" hotels_loaded
     = (Ok (VList hotels), hotels_loaded)
  /\ DataLoader.load_json (H:=runtime) "data/hotels.json"
       (World ∅ (cache hotels_loaded))
     = (Ok (VList hotels), World ∅ (cache hotels_loaded)).
Proof.
  assert (DataLoader.load_json (H:=runtime) "data/hotels.json" fresh
          = (Ok (VList hotels), hotels_loaded)) as Hload by reflexivity.
  destruct (load_json_idempotent (H:=runtime) _ _ _ _ Hload) as (_ & Hany & Hagain).
  split; [exact Hload|]. split; [exact Hagain|]. exact (Hany ∅).
Defined.
End MoreExamples.

(** * Further properties of the code *)

(** ** What the tools answer to a bad request *)

Section BadRequests.
Context `{Python} (settings : Settings).

Lemma dict_get_text d key dflt s :
  text_param d key dflt = Some s ->
  dict_get (VDict d) key (VStr dflt) = Ok (VStr s).
Proof.
  unfold text_param, dict_get. destruct (d !! key) as [[]|]; simpl; congruence.
Qed.

(** A text that is not JSON: each tool answers with its own "invalid JSON"
    text, and the process state is untouched (no resource is loaded). *)
Theorem invalid_json_answers (q : string) (w : world) (msg : string) :
  json_loads q = Raise (Exn JSONDecodeError msg) ->
  FlightSearchTool._run settings q w = (Ok "Error: Invalid JSON format.", w) /\
  HotelRecommendationTool._run settings q w
  = (Ok "Error: Invalid JSON format. Please provide valid JSON with 'city'.", w) /\
  PlacesDiscoveryTool._run settings q w = (Ok "Error: Invalid JSON format.", w) /\
  WeatherLookupTool._run settings q w = (Ok "Error: Invalid JSON format.", w) /\
  BudgetEstimationTool._run settings q w = (Ok "Error: Invalid JSON format.", w).
Proof.
  intros Hq. repeat split.
  - unfold FlightSearchTool._run, FlightSearchTool.body,
      FlightSearchTool.read_request. by rewrite Hq.
  - unfold HotelRecommendationTool._run, HotelRecommendationTool.body,
      HotelRecommendationTool.read_request. by rewrite Hq.
  - unfold PlacesDiscoveryTool._run, PlacesDiscoveryTool.body,
      PlacesDiscoveryTool.read_request. by rewrite Hq.
  - unfold WeatherLookupTool._run, WeatherLookupTool.body. by rewrite Hq.
  - unfold BudgetEstimationTool._run, BudgetEstimationTool.body. by rewrite Hq.
Qed.

(** A resource file that exists but does not hold JSON: the
    [JSONDecodeError] of the loader is caught by the handler meant for the
    request, so the answer blames the request's format; nothing is cached. *)
Theorem corrupt_resource_is_reported_as_bad_request (w : world) (msg : string) :
  (forall q req text,
     FlightSearchTool.read_request q = Ok (inr req) ->
     cache w !! FLIGHTS_PATH settings = None ->
     files w !! FLIGHTS_PATH settings = Some text ->
     json_loads text = Raise (Exn JSONDecodeError msg) ->
     FlightSearchTool._run settings q w = (Ok "Error: Invalid JSON format.", w)) /\
  (forall q req text,
     HotelRecommendationTool.read_request q = Ok (inr req) ->
     cache w !! HOTELS_PATH settings = None ->
     files w !! HOTELS_PATH settings = Some text ->
     json_loads text = Raise (Exn JSONDecodeError msg) ->
     HotelRecommendationTool._run settings q w
     = (Ok "Error: Invalid JSON format. Please provide valid JSON with 'city'.", w)) /\
  (forall q req text,
     PlacesDiscoveryTool.read_request q = Ok (inr req) ->
     cache w !! PLACES_PATH settings = None ->
     files w !! PLACES_PATH settings = Some text ->
     json_loads text = Raise (Exn JSONDecodeError msg) ->
     PlacesDiscoveryTool._run settings q w = (Ok "Error: Invalid JSON format.", w)).
Proof.
  repeat split; intros q req text Hreq Hc Hf Htext.
  - unfold FlightSearchTool._run, FlightSearchTool.body, DataLoader.load_json.
    by rewrite Hreq, Hc, Hf, Htext.
  - unfold HotelRecommendationTool._run, HotelRecommendationTool.body,
      DataLoader.load_json.
    by rewrite Hreq, Hc, Hf, Htext.
  - unfold PlacesDiscoveryTool._run, PlacesDiscoveryTool.body,
      DataLoader.load_json.
    by rewrite Hreq, Hc, Hf, Htext.
Qed.

(** A request without a required parameter (absent, or blank once
    stripped) while the other parameters convert: each tool answers with
    its own text about the parameter and leaves the process state as it
    is; no resource is loaded, so the answer is the same when the resource
    file is missing. *)
Theorem required_parameters (q : string) (d : gmap string value) (w : world) :
  json_loads q = Ok (VDict d) ->
  (forall s t p,
     text_param d "source" "" = Some s ->
     text_param d "destination" "" = Some t ->
     text_param d "preference" "cheapest" = Some p ->
     str_strip s = "" \/ str_strip t = "" ->
     FlightSearchTool._run settings q w
     = (Ok "Error: Both source and destination are required.", w)) /\
  (forall c r,
     text_param d "city" "" = Some c ->
     py_int (default (VNum 3) (d !! "min_rating")) = Ok r ->
     str_strip c = "" ->
     HotelRecommendationTool._run settings q w = (Ok "Error: City is required.", w)) /\
  (forall c k r,
     text_param d "city" "" = Some c ->
     text_param d "category" "" = Some k ->
     py_float (default (VNum (7 # 2)) (d !! "min_rating")) = Ok r ->
     str_strip c = "" ->
     PlacesDiscoveryTool._run settings q w = (Ok "Error: City is required.", w)) /\
  (forall c s n,
     text_param d "city" "" = Some c ->
     text_param d "start_date" "" = Some s ->
     py_int (default (VNum 7) (d !! "num_days")) = Ok n ->
     str_strip c = "" \/ str_strip s = "" ->
     WeatherLookupTool._run settings q w
     = (Ok "Error: Both city and start_date are required.", w)).
Proof.
  intros Hq. repeat split.
  - intros s t p Hs Ht Hp Hblank.
    unfold FlightSearchTool._run, FlightSearchTool.body,
      FlightSearchTool.read_request.
    rewrite Hq. cbn [mbind result_bind].
    rewrite (dict_get_text _ _ _ _ Hs), (dict_get_text _ _ _ _ Ht),
      (dict_get_text _ _ _ _ Hp).
    cbn [mbind result_bind str_method].
    destruct Hblank as [-> | ->]; [done|].
    by rewrite orb_true_r.
  - intros c r Hc Hr Hblank.
    unfold HotelRecommendationTool._run, HotelRecommendationTool.body,
      HotelRecommendationTool.read_request.
    rewrite Hq. cbn [mbind result_bind].
    rewrite (dict_get_text _ _ _ _ Hc).
    cbn [mbind result_bind str_method dict_get]. rewrite Hr.
    cbn [mbind result_bind dict_get_none dict_get]. by rewrite Hblank.
  - intros c k r Hc Hk Hr Hblank.
    unfold PlacesDiscoveryTool._run, PlacesDiscoveryTool.body,
      PlacesDiscoveryTool.read_request.
    rewrite Hq. cbn [mbind result_bind].
    rewrite (dict_get_text _ _ _ _ Hc), (dict_get_text _ _ _ _ Hk).
    cbn [mbind result_bind str_method dict_get]. rewrite Hr.
    cbn [mbind result_bind]. by rewrite Hblank.
  - intros c s n Hc Hs Hn Hblank.
    unfold WeatherLookupTool._run, WeatherLookupTool.body.
    rewrite Hq. cbn [mbind result_bind].
    rewrite (dict_get_text _ _ _ _ Hc), (dict_get_text _ _ _ _ Hs).
    cbn [mbind result_bind str_method dict_get]. rewrite Hn.
    cbn [mbind result_bind].
    destruct Hblank as [-> | ->]; [done|].
    by rewrite orb_true_r.
Qed.
End BadRequests.

(** ** The loader: failures, clearing, several paths *)

Section LoaderMore.
Context `{Python}.
Import DataLoader.

(** A load that fails because the file is missing or does not parse
    changes nothing, so a later load starts afresh. *)
Theorem failed_load_changes_nothing (p : string) (w : world) :
  cache w !! p = None ->
  (files w !! p = None \/
   exists text e, files w !! p = Some text /\ json_loads text = Raise e) ->
  exists e, load_json p w = (Raise e, w).
Proof.
  intros Hc Hfail. unfold load_json. rewrite Hc.
  destruct Hfail as [-> | (text & e & -> & ->)]; by eexists.
Qed.

(** A file whose JSON is a value without a length (a number, [null],
    [true]): the first load raises, but only after the value was cached,
    so every later load of the path returns the value without an error. *)
Theorem scalar_resource_is_cached_by_the_failing_load (p text : string)
    (w : world) (data : value) (e : exn) :
  cache w !! p = None ->
  files w !! p = Some text ->
  json_loads text = Ok data ->
  py_len data = Raise e ->
  let w' := World (files w) (<[p := data]> (cache w)) in
  load_json p w = (Raise e, w') /\
  load_json p w' = (Ok data, w').
Proof.
  intros Hc Hf Hparse Hlen w'. split.
  - unfold load_json. by rewrite Hc, Hf, Hparse, Hlen.
  - apply load_json_hit. apply lookup_insert_eq.
Qed.

(** [clear_cache] forgets every array: the next load goes to the disk
    again, returns what the file holds now, and fails when the file is
    gone although the path had been cached. *)
Theorem clear_cache_forces_reload (p : string) (w : world) :
  cache (clear_cache w) = ∅ /\
  files (clear_cache w) = files w /\
  (files w !! p = None ->
   load_json p (clear_cache w)
   = (raise FileNotFoundError ("Data file not found: " +:+ p), clear_cache w)) /\
  (forall text data n,
     files w !! p = Some text -> json_loads text = Ok data ->
     py_len data = Ok n ->
     load_json p (clear_cache w) = (Ok data, World (files w) {[p := data]})).
Proof.
  split; [done|]. split; [done|]. split.
  - intros Hf. unfold load_json, clear_cache. simpl.
    by rewrite lookup_empty, Hf.
  - intros text data n Hf Hparse Hlen. unfold load_json, clear_cache. simpl.
    by rewrite lookup_empty, Hf, Hparse, Hlen.
Qed.

(** Loads of different paths do not disturb each other: what a load of
    [p] returns is the same before and after a load of another path [q],
    whether that load succeeded or not. *)
Theorem loads_of_other_paths_do_not_interfere (p q : string) (w : world) :
  p <> q ->
  (load_json p (load_json q w).2).1 = (load_json p w).1.
Proof.
  intros Hpq.
  destruct (load_json q w) as [r w1] eqn:Hq. simpl.
  assert (files w1 = files w /\ cache w1 !! p = cache w !! p) as [Hfiles Hcache].
  { unfold load_json in Hq.
    destruct (cache w !! q); [by injection Hq as <- <-|].
    destruct (files w !! q) as [text|]; [|by injection Hq as <- <-].
    destruct (json_loads text) as [data|]; [|by injection Hq as <- <-].
    destruct (py_len data); injection Hq as <- <-; simpl;
      (split; [done|]); by rewrite lookup_insert_ne. }
  unfold load_json. rewrite Hcache, Hfiles.
  destruct (cache w !! p); [done|].
  destruct (files w !! p) as [text|]; [|done].
  destruct (json_loads text) as [data|]; [|done].
  by destruct (py_len data).
Qed.
End LoaderMore.

(** ** The weather tool *)

Lemma traverse_raises {A B} (f : A -> result B) (l : list A) (x : A) (e : exn) :
  x ∈ l -> f x = Raise e -> exists e', traverse f l = Raise e'.
Proof.
  induction l as [|y l IH]; intros Hin Hx; [by apply elem_of_nil in Hin|].
  simpl. apply elem_of_cons in Hin as [<- | Hin].
  - rewrite Hx. by eexists.
  - destruct (f y); [|by eexists]. simpl.
    destruct (IH Hin Hx) as [e' ->]. by eexists.
Qed.

Lemma get_weather_condition_numbers (p w : Q) :
  WeatherLookupTool.get_weather_condition (VNum p) (VNum w) = Ok (condition_of p w).
Proof.
  unfold WeatherLookupTool.get_weather_condition, condition_of.
  rewrite !py_gt_VNum. cbn [mbind result_bind].
  by repeat destruct (Qltb _ _).
Qed.

Lemma get_weather_condition_None (w : value) :
  exists e, WeatherLookupTool.get_weather_condition VNone w = Raise e.
Proof. by eexists. Qed.

Section Weather.
Context `{Python} (settings : Settings).
Import WeatherLookupTool.

Lemma item_or_numbers (qs : list Q) (i : nat) (convert : value -> result value)
    (dflt : value) :
  item_or (VList (VNum <$> qs)) i convert dflt
  = match qs !! i with
    | Some q => convert (VNum q)
    | None => Ok dflt
    end.
Proof.
  unfold item_or. cbn [py_len mbind result_bind]. rewrite length_fmap.
  case_bool_decide as Hi.
  - destruct (lookup_lt_is_Some_2 qs i Hi) as [q Hq].
    cbn [py_index]. rewrite list_lookup_fmap, Hq. done.
  - rewrite lookup_ge_None_2 by lia. done.
Qed.

Lemma day_numbers (dates : list value) (maxima minima precipitation windspeed : list Q)
    (i : nat) :
  i < length dates ->
  day (VList dates) (VList (VNum <$> maxima)) (VList (VNum <$> minima))
      (VList (VNum <$> precipitation)) (VList (VNum <$> windspeed)) i
  = Ok (forecast_day dates maxima minima precipitation windspeed i).
Proof.
  intros Hi. destruct (lookup_lt_is_Some_2 dates i Hi) as [d Hd].
  unfold day, forecast_day. rewrite !item_or_numbers.
  cbn [py_index]. rewrite Hd. unfold py_round, py_round1.
  destruct (precipitation !! i) as [p|], (windspeed !! i) as [v|],
    (maxima !! i) as [a|], (minima !! i) as [b|];
    cbn [mbind result_bind as_num from_option id]; rewrite get_weather_condition_numbers;
    reflexivity.
Qed.

(** The forecast follows the dates of the response by index: one entry
    per date, in order, each metric taken at the date's index, rounded; a
    metric array that is absent or shorter than the dates leaves the
    temperature [None], precipitation and wind 0, and the label computed
    from 0. *)
Theorem forecast_is_index_aligned (latitude longitude : Q) (start_date : string)
    (num_days start end_ : Z) (data daily : gmap string value)
    (dates : list value) (maxima minima precipitation windspeed : list Q) :
  strptime_ymd start_date = Some start ->
  add_days start (num_days - 1) = Ok end_ ->
  requests_get_json (WEATHER_API_URL settings) latitude longitude start end_
  = Ok (VDict data) ->
  data !! "daily" = Some (VDict daily) ->
  daily !! "time" = Some (VList dates) ->
  numbers_or_absent daily "temperature_2m_max" maxima ->
  numbers_or_absent daily "temperature_2m_min" minima ->
  numbers_or_absent daily "precipitation_sum" precipitation ->
  numbers_or_absent daily "windspeed_10m_max" windspeed ->
  fetch_weather settings latitude longitude start_date num_days
  = forecast_day dates maxima minima precipitation windspeed
      <$> seq 0 (length dates).
Proof.
  intros Hstart Hend Hget Hdaily Htime Hmax Hmin Hp Hw.
  assert (forall key qs, numbers_or_absent daily key qs ->
            dict_get (VDict daily) key (VList []) = Ok (VList (VNum <$> qs))) as Harr.
  { intros key qs [Hk | [Hk ->]]; unfold dict_get; by rewrite Hk. }
  unfold fetch_weather, fetch_weather_body.
  rewrite Hstart. cbn [mbind result_bind]. rewrite Hend. cbn [mbind result_bind].
  rewrite Hget. cbn [mbind result_bind dict_get]. rewrite Hdaily.
  cbn [from_option id mbind result_bind].
  assert (dict_get (VDict daily) "time" (VList []) = Ok (VList dates)) as ->
    by (unfold dict_get; by rewrite Htime).
  cbn [mbind result_bind].
  rewrite (Harr _ _ Hmax), (Harr _ _ Hmin), (Harr _ _ Hp), (Harr _ _ Hw).
  cbn [mbind result_bind py_len].
  rewrite (traverse_pure _ (forecast_day dates maxima minima precipitation windspeed));
    [done|].
  apply Forall_forall. intros i Hi. apply elem_of_seq in Hi.
  apply day_numbers. lia.
Qed.

(** One [null] in the precipitation array, at the index of some date,
    costs the whole forecast: the comparison of [None] with a number
    raises, and [fetch_weather] answers every exception with the empty
    list. *)
Theorem null_precipitation_discards_forecast (latitude longitude : Q)
    (start_date : string) (num_days start end_ : Z)
    (data daily : gmap string value) (dates precipitation : list value) (i : nat) :
  strptime_ymd start_date = Some start ->
  add_days start (num_days - 1) = Ok end_ ->
  requests_get_json (WEATHER_API_URL settings) latitude longitude start end_
  = Ok (VDict data) ->
  data !! "daily" = Some (VDict daily) ->
  daily !! "time" = Some (VList dates) ->
  daily !! "precipitation_sum" = Some (VList precipitation) ->
  i < length dates ->
  precipitation !! i = Some VNone ->
  fetch_weather settings latitude longitude start_date num_days = [].
Proof.
  intros Hstart Hend Hget Hdaily Htime Hp Hi Hnull.
  unfold fetch_weather, fetch_weather_body.
  rewrite Hstart. cbn [mbind result_bind]. rewrite Hend. cbn [mbind result_bind].
  rewrite Hget. cbn [mbind result_bind dict_get]. rewrite Hdaily.
  cbn [from_option id mbind result_bind dict_get]. rewrite Htime, Hp.
  cbn [from_option id mbind result_bind py_len].
  match goal with
  | |- context [traverse (day ?a ?b ?c ?d ?w) ?l] =>
      assert (exists e, day a b c d w i = Raise e) as [e He];
      [|destruct (traverse_raises (day a b c d w) l i e) as [e' ->];
        [apply elem_of_seq; lia|exact He|done]]
  end.
  assert (item_or (VList precipitation) i Ok (VNum 0) = Ok VNone) as Hitem.
  { unfold item_or. cbn [py_len mbind result_bind].
    rewrite bool_decide_eq_true_2 by (by apply lookup_lt_Some in Hnull).
    cbn [py_index]. by rewrite Hnull. }
  unfold day. rewrite Hitem. cbn [mbind result_bind].
  match goal with
  | |- context [item_or ?a i Ok (VNum 0)] =>
      destruct (item_or a i Ok (VNum 0)) as [v|]
  end; cbn [mbind result_bind]; [|by eexists].
  destruct (get_weather_condition_None v) as [e ->]. by eexists.
Qed.
End Weather.

Section WeatherAnswers.
Context `{Python} (settings : Settings).
Import WeatherLookupTool.

(** Whatever goes wrong while fetching is answered with the empty
    forecast: a start date that does not parse, an end date beyond the
    calendar, a request that fails, a response that is not an object. *)
Theorem fetch_weather_failures (latitude longitude : Q) (start_date : string)
    (num_days : Z) :
  (strptime_ymd start_date = None ->
   fetch_weather settings latitude longitude start_date num_days = []) /\
  (forall start, strptime_ymd start_date = Some start ->
     ~ (1 <= start + (num_days - 1) <= 3652059)%Z ->
     fetch_weather settings latitude longitude start_date num_days = []) /\
  (forall start e, strptime_ymd start_date = Some start ->
     (1 <= start + (num_days - 1) <= 3652059)%Z ->
     requests_get_json (WEATHER_API_URL settings) latitude longitude start
                       (start + (num_days - 1)) = Raise e ->
     fetch_weather settings latitude longitude start_date num_days = []) /\
  (forall start response, strptime_ymd start_date = Some start ->
     (1 <= start + (num_days - 1) <= 3652059)%Z ->
     requests_get_json (WEATHER_API_URL settings) latitude longitude start
                       (start + (num_days - 1)) = Ok response ->
     (forall data, response <> VDict data) ->
     fetch_weather settings latitude longitude start_date num_days = []).
Proof.
  unfold fetch_weather, fetch_weather_body. repeat split.
  - by intros ->.
  - intros start -> Hrange. cbn [mbind result_bind]. unfold add_days.
    by rewrite bool_decide_eq_false_2.
  - intros start e -> Hrange Hget. cbn [mbind result_bind]. unfold add_days.
    rewrite bool_decide_eq_true_2 by done. cbn [mbind result_bind].
    by rewrite Hget.
  - intros start response -> Hrange Hget Hshape. cbn [mbind result_bind].
    unfold add_days. rewrite bool_decide_eq_true_2 by done.
    cbn [mbind result_bind]. rewrite Hget. cbn [mbind result_bind].
    destruct response; try done. by destruct (Hshape d).
Qed.

(** With a city and a start date given: a city that is not in the table of
    coordinates (looked up in lower case) is answered with "Coordinates not
    found", and for a city of the table an empty forecast is answered with
    "Could not fetch weather data"; in both cases without an exception. *)
Theorem weather_error_answers (q : string) (d : gmap string value) (w : world)
    (c s : string) (n : Z) :
  json_loads q = Ok (VDict d) ->
  text_param d "city" "" = Some c ->
  text_param d "start_date" "" = Some s ->
  py_int (default (VNum 7) (d !! "num_days")) = Ok n ->
  str_strip c <> "" ->
  str_strip s <> "" ->
  (CITY_COORDINATES !! str_lower (str_strip c) = None ->
   _run settings q w
   = (Ok ("Error: Coordinates not found for " +:+ str_strip c
          +:+ ". Please check the city name."), w)) /\
  (forall latitude longitude,
     CITY_COORDINATES !! str_lower (str_strip c) = Some (latitude, longitude) ->
     fetch_weather settings latitude longitude (str_strip s) n = [] ->
     _run settings q w
     = (Ok ("Error: Could not fetch weather data for " +:+ str_strip c +:+ "."), w)).
Proof.
  intros Hq Hc Hs Hn Hcity Hdate.
  assert (body settings q
          = match get_city_coordinates (str_strip c) with
            | None =>
                Ok ("Error: Coordinates not found for " +:+ str_strip c
                    +:+ ". Please check the city name.")
            | Some (latitude, longitude) =>
                let weather_data :=
                  fetch_weather settings latitude longitude (str_strip s) n in
                if bool_decide (weather_data = [])
                then Ok ("Error: Could not fetch weather data for "
                         +:+ str_strip c +:+ ".")
                else
                  Ok ("Weather Forecast for " +:+ str_title (str_strip c) +:+ nl
                      +:+ "From " +:+ str_strip s +:+ " (" +:+ pretty n
                      +:+ " days)" +:+ nl
                      +:+ repeat_str "=" 50 +:+ nl +:+ nl
                      +:+ join "" (render_day <$> weather_data))
            end) as Hbody.
  { unfold body. rewrite Hq. cbn [mbind result_bind].
    rewrite (dict_get_text _ _ _ _ Hc), (dict_get_text _ _ _ _ Hs).
    cbn [mbind result_bind str_method dict_get]. rewrite Hn.
    cbn [mbind result_bind].
    by rewrite !bool_decide_eq_false_2. }
  unfold _run, get_city_coordinates in *. rewrite Hbody. split.
  - by intros ->.
  - intros latitude longitude -> Hempty. cbv zeta. by rewrite Hempty.
Qed.
End WeatherAnswers.

